(** * Pulse timetable processing: a shallow embedding of
      [scripts/process_timetable.py] and the properties of its
      schedule consolidation engine.

    Python values are modelled as follows.
    - [str] is [string]; every character is a code point below 256, so the
      whitespace and decimal-digit classes are those of Latin-1.
    - [int] is [Z] (Python integers are unbounded).
    - [None] is the [None] of [option]; a missing dictionary key read with
      [d.get(k)] is [None] as well.
    - a lookup-only [dict] is a [gmap]; a [dict] that is iterated
      (insertion order matters) is an association list.
    - [float] coordinates and [round] are an interface ([Coord]). *)

From Stdlib Require Import ZArith String Ascii List Lia Bool.
From Stdlib Require Import Sorting.Permutation Sorting.Sorted.
From stdpp Require Import base option list gmap strings.

Local Open Scope string_scope.
Local Open Scope list_scope.
Local Open Scope Z_scope.

(** ** Python strings *)

Module PyStr.

(** [str.isspace] on one character, restricted to code points below 256:
    TAB..CR, FS..US, SPACE, NEL and NBSP. *)
Definition is_space (c : ascii) : bool :=
  let n := nat_of_ascii c in
  ((9 <=? n)%nat && (n <=? 13)%nat)
  || ((28 <=? n)%nat && (n <=? 32)%nat)
  || (n =? 133)%nat || (n =? 160)%nat.

(** Decimal digits below 256 are exactly '0'..'9'. *)
Definition is_digit (c : ascii) : bool :=
  let n := nat_of_ascii c in (48 <=? n)%nat && (n <=? 57)%nat.

Definition digit_val (c : ascii) : Z := Z.of_nat (nat_of_ascii c) - 48.

Fixpoint lstrip (s : string) : string :=
  match s with
  | String c r => if is_space c then lstrip r else s
  | EmptyString => EmptyString
  end.

Fixpoint rstrip (s : string) : string :=
  match s with
  | EmptyString => EmptyString
  | String c r =>
      match rstrip r with
      | EmptyString => if is_space c then EmptyString else String c EmptyString
      | r' => String c r'
      end
  end.

(** [s.strip()] *)
Definition strip (s : string) : string := rstrip (lstrip s).

(** [s[i:j]] for [0 <= i <= j]; like a Python slice it is truncated at
    the end of the string and never fails. *)
Definition slice (i j : nat) (s : string) : string := substring i (j - i) s.

(** [len(s) > i and s[i] == c] *)
Definition has_char_at (i : nat) (c : ascii) (s : string) : bool :=
  match get i s with
  | Some d => Ascii.eqb d c
  | None => false
  end.

(** The digit part of an integer literal: decimal digits, where single
    underscores may separate two digits.  [seen] tells whether the
    previous character was a digit. *)
Fixpoint int_digits (acc : Z) (seen : bool) (s : string) : option Z :=
  match s with
  | EmptyString => if seen then Some acc else None
  | String c r =>
      if is_digit c then int_digits (10 * acc + digit_val c) true r
      else if Ascii.eqb c "_" then
        (if seen then int_digits acc false r else None)
      else None
  end.

(** [int(s)]: surrounding whitespace is ignored, then an optional sign,
    then the digits.  [None] stands for [ValueError]. *)
Definition int (s : string) : option Z :=
  match strip s with
  | String "+" r => int_digits 0 false r
  | String "-" r => Z.opp <$> int_digits 0 false r
  | t => int_digits 0 false t
  end.

(** Truth value of an optional string: [None] and [''] are falsy. *)
Definition truthy (o : option string) : bool :=
  match o with
  | Some (String _ _) => true
  | _ => false
  end.

End PyStr.

(** ** Time Codec and Day-Pattern Selector *)

(** [parse_time]: [None] models both Python's [None] argument (absent key)
    and Python's [None] result. *)
Definition parse_time (time_str : option string) : option Z :=
  match time_str with
  | None => None
  | Some time_str =>
      if negb (PyStr.truthy (Some time_str)) || (PyStr.strip time_str =? EmptyString)%string
      then None
      else
        let t := PyStr.strip time_str in
        match PyStr.int (PyStr.slice 0 2 t) with
        | None => None
        | Some h =>
            match PyStr.int (PyStr.slice 2 4 t) with
            | None => None
            | Some m =>
                let s := if PyStr.has_char_at 4 "H" t then 30 else 0 in
                Some (h * 3600 + m * 60 + s)
            end
        end
  end.

(** [is_tuesday] *)
Definition is_tuesday (days_run : option string) : bool :=
  match days_run with
  | None => true
  | Some d =>
      if negb (PyStr.truthy (Some d)) || (String.length d <? 7)%nat then true
      else PyStr.has_char_at 1 "1" d
  end.

(** The value of two decimal digits, as in a zero-padded hour or minute. *)
Definition two_digits (a b : ascii) : Z := 10 * PyStr.digit_val a + PyStr.digit_val b.

Global Arguments parse_time : simpl never.
Global Arguments is_tuesday : simpl never.

(** ** Data model *)

(** Python floats and the built-in [round(x, ndigits)]. *)
Class Coord := { coord : Type; round : nat → coord → coord }.

(** One element of [schedule_location]; a field is [None] when the key is
    missing from the JSON object. *)
Record Location := {
  tiploc_code : option string;
  departure : option string;
  arrival : option string;
  pass : option string
}.

(** The object under the key ['JsonScheduleV1'] of a feed line.
    [schedule_location] is [[]] when [schedule_segment] or
    [schedule_location] is missing. *)
Record JsonScheduleV1 := {
  CIF_train_uid : option string;
  CIF_stp_indicator : option string;
  schedule_days_runs : option string;
  atoc_code : option string;
  schedule_location : list Location
}.

(** A line of the feed: not JSON at all, JSON without the key
    ['JsonScheduleV1'], or a schedule. *)
Inductive FeedLine :=
| Malformed
| OtherRecord
| ScheduleRecord (sched : JsonScheduleV1).

(** An entry of [schedules_by_uid[uid]]. *)
Record Version := {
  uid : string;
  stp : string;
  toc : string;
  locations : list Location
}.

(** A value of the [stations] table. *)
Record Station `{Coord} := {
  name : string;
  lat : coord;
  lng : coord
}.

(** A path element [[lng, lat, time]]. *)
Definition Waypoint `{Coord} : Type := coord * coord * Z.

(** [p[2]] *)
Definition wp_time `{Coord} (p : Waypoint) : Z := p.2.

(** An element of [trains]: keys ['id'], ['op'], ['from'], ['to'], ['path']. *)
Record Train `{Coord} := {
  train_id : string;
  train_op : string;
  train_from : string;
  train_to : string;
  train_path : list Waypoint
}.

Record OperatorInfo := {
  op_name : string;
  op_color : string
}.

Record Meta := {
  meta_date : string;
  total_trains : nat;
  meta_source : string
}.

(** The object written by [json.dump]; [operators] is kept in insertion
    order, the order in which it is serialised. *)
Record Output `{Coord} := {
  meta : Meta;
  operators : list (string * OperatorInfo);
  trains : list Train
}.

(** ** [list.sort(key=..., reverse=...)] *)

Section Sort.
Context {A : Type} (key : A → Z).

(** [x] goes in front of the first element that may follow it; an
    element with an equal key may, so equal keys keep their order. *)
Definition goes_before (reverse : bool) (x y : A) : bool :=
  if reverse then (key y <=? key x)%Z else (key x <=? key y)%Z.

Fixpoint sort_insert (reverse : bool) (x : A) (l : list A) : list A :=
  match l with
  | [] => [x]
  | y :: l' =>
      if goes_before reverse x y then x :: y :: l'
      else y :: sort_insert reverse x l'
  end.

(** The stable sort: the first element is inserted last, in front of
    its equals. *)
Definition py_sort (reverse : bool) (l : list A) : list A :=
  foldr (sort_insert reverse) [] l.
End Sort.

(** ** Grouping the feed by uid *)

(** [STP_PRIORITY] *)
Definition STP_PRIORITY : gmap string Z :=
  list_to_map [("C", 4); ("N", 3); ("O", 2); ("P", 1)].


(** The sort key [STP_PRIORITY.get(v['stp'], 0)]. *)
Definition stp_priority (v : Version) : Z := default 0 (STP_PRIORITY !! stp v).

(** [d[k].append(v)] on a [defaultdict(list)]: a new key goes last. *)
Fixpoint dict_append (k : string) (v : Version)
    (d : list (string * list Version)) : list (string * list Version) :=
  match d with
  | [] => [(k, [v])]
  | (k', vs) :: d' =>
      if (k' =? k)%string then (k', (vs ++ [v])%list) :: d'
      else (k', vs) :: dict_append k v d'
  end.

(** [d.get(k)] on the same dictionary. *)
Fixpoint dict_get (k : string) (d : list (string * list Version))
    : option (list Version) :=
  match d with
  | [] => None
  | (k', vs) :: d' => if (k' =? k)%string then Some vs else dict_get k d'
  end.

Definition is_empty {A} (l : list A) : bool :=
  match l with [] => true | _ => false end.

(** The body of the loop over the lines of the feed, up to the
    [append]: the dictionary that is appended for a line, or [None] when
    the iteration ends in [continue]. *)
Definition line_version (line : FeedLine) : option Version :=
  match line with
  | ScheduleRecord sched =>
      let uid := default EmptyString (CIF_train_uid sched) in
      let stp := default "P" (CIF_stp_indicator sched) in
      let days_run := default EmptyString (schedule_days_runs sched) in
      let toc := default EmptyString (atoc_code sched) in
      let locations := schedule_location sched in
      if (uid =? EmptyString)%string || is_empty locations then None
      else if negb (is_tuesday (Some days_run)) then None
      else Some {| uid := uid; stp := stp; toc := toc; locations := locations |}
  | _ => None
  end.

(** [schedules_by_uid[uid].append(...)] *)
Definition ingest_line (schedules_by_uid : list (string * list Version))
    (line : FeedLine) : list (string * list Version) :=
  match line_version line with
  | Some v => dict_append (uid v) v schedules_by_uid
  | None => schedules_by_uid
  end.

Definition group_by_uid (feed : list FeedLine) : list (string * list Version) :=
  fold_left ingest_line feed [].

(** [versions.sort(key=..., reverse=True); best = versions[0]].
    [None] stands for the [IndexError] of an empty list. *)
Definition select_best (versions : list Version) : option Version :=
  head (py_sort stp_priority true versions).

(** The running variants of one uid, in the order of the feed. *)
Definition variants (k : string) (feed : list FeedLine) : list Version :=
  filter (λ v, uid v = k) (omap line_version feed).

(** ** Path building *)

(** Python's [a or b] on optional integers: [None] and [0] are falsy. *)
Definition py_or (a b : option Z) : option Z :=
  match a with
  | Some 0 => b
  | Some x => Some x
  | None => b
  end.

(** [parse_time(loc.get('departure')) or parse_time(loc.get('arrival'))
     or parse_time(loc.get('pass'))] *)
Definition stop_time (loc : Location) : option Z :=
  py_or (py_or (parse_time (departure loc)) (parse_time (arrival loc)))
        (parse_time (pass loc)).

(** [loc.get('tiploc_code', '').strip()] *)
Definition stop_tiploc (loc : Location) : string :=
  PyStr.strip (default EmptyString (tiploc_code loc)).

Section Pipeline.
Context `{Coord}.
Context (tiploc_to_crs : gmap string string) (stations : gmap string Station).

(** The Location Resolver as the path loop uses it:
    [crs = tiploc_to_crs.get(tiploc)], rejected when
    [not crs or crs not in stations], else [stations[crs]]. *)
Definition resolve (tiploc : string) : option Station :=
  match tiploc_to_crs !! tiploc with
  | None => None
  | Some crs => if (crs =? EmptyString)%string then None else stations !! crs
  end.

(** One iteration of the path loop: the waypoint appended for [loc], or
    [None] when the iteration ends in [continue]. *)
Definition waypoint (loc : Location) : option Waypoint :=
  match resolve (stop_tiploc loc) with
  | None => None
  | Some stn =>
      match stop_time loc with
      | None => None
      | Some time => Some (round 5 (lng stn), round 5 (lat stn), time)
      end
  end.

(** [stations.get(tiploc_to_crs.get(tiploc, ''), {})] for the first and
    last raw stop; [None] stands for the empty dictionary. *)
Definition endpoint (loc : Location) : option Station :=
  stations !! default EmptyString (tiploc_to_crs !! stop_tiploc loc).

(** [origin.get('name', '?')] *)
Definition display_name (stn : option Station) : string :=
  match stn with
  | Some s => name s
  | None => "?"
  end.

(** The rest of the loop body once [best] is known.  [None] means that
    no train is appended.  The last case is the [IndexError] of
    [best['locations'][0]] on an empty list; it is not reachable, since
    a path of two waypoints needs two locations. *)
Definition build_train (uid : string) (best : Version) : option Train :=
  let path := omap waypoint (locations best) in
  if (length path <? 2)%nat then None
  else
    let path := py_sort wp_time false path in
    match head (locations best), last (locations best) with
    | Some first, Some final =>
        Some {| train_id := uid;
                train_op := toc best;
                train_from := display_name (endpoint first);
                train_to := display_name (endpoint final);
                train_path := path |}
    | _, _ => None
    end.

(** The body of the loop over [schedules_by_uid.items()]. *)
Definition process_uid (entry : string * list Version) : option Train :=
  match select_best entry.2 with
  | None => None
  | Some best =>
      if (stp best =? "C")%string then None
      else build_train entry.1 best
  end.

(** [process_schedule], on the lines of the feed. *)
Definition process_schedule (feed : list FeedLine) : list Train :=
  omap process_uid (group_by_uid feed).
End Pipeline.

(** ** Operator filter and output assembly *)

Definition operator (n c : string) : OperatorInfo :=
  {| op_name := n; op_color := c |}.

(** [KNOWN_OPERATORS] *)
Definition KNOWN_OPERATORS : gmap string OperatorInfo :=
  list_to_map [
    ("NT", operator "Northern Trains" "#262262");
    ("SE", operator "Southeastern" "#009ddc");
    ("SR", operator "ScotRail" "#1a5ba5");
    ("SW", operator "South Western Railway" "#e11837");
    ("GW", operator "Great Western Railway" "#0a493e");
    ("SN", operator "Southern" "#8cc63e");
    ("LO", operator "London Overground" "#ef7b10");
    ("AW", operator "Transport for Wales" "#e4131b");
    ("LE", operator "Greater Anglia" "#d70428");
    ("LM", operator "West Midlands Trains" "#ff8300");
    ("TL", operator "Thameslink" "#e83673");
    ("ME", operator "Merseyrail" "#ffd500");
    ("XR", operator "Elizabeth Line" "#9364cc");
    ("TP", operator "TransPennine Express" "#00a4e4");
    ("EM", operator "East Midlands Railway" "#6b2c91");
    ("VT", operator "Avanti West Coast" "#e4131b");
    ("CC", operator "c2c" "#b71c8e");
    ("GN", operator "Great Northern" "#e83673");
    ("CH", operator "Chiltern Railways" "#00bfff");
    ("XC", operator "CrossCountry" "#660f21");
    ("GR", operator "LNER" "#ce0e2d");
    ("HX", operator "Heathrow Express" "#532e63");
    ("GX", operator "Gatwick Express" "#e11837");
    ("CS", operator "Caledonian Sleeper" "#1e3264");
    ("GC", operator "Grand Central" "#2d2926");
    ("IL", operator "Island Line" "#1fa14a");
    ("TW", operator "Tyne & Wear Metro" "#ffd500");
    ("LT", operator "London Tramlink" "#6cc24a")
  ].

Global Arguments KNOWN_OPERATORS : simpl never.

(** [op in KNOWN_OPERATORS] *)
Definition is_known (op : string) : bool :=
  bool_decide (is_Some (KNOWN_OPERATORS !! op)).

(** [op in operators] on the insertion-ordered dictionary. *)
Definition has_key (op : string) (operators : list (string * OperatorInfo)) : bool :=
  existsb (λ e, (e.1 =? op)%string) operators.

(** [KNOWN_OPERATORS.get(op, {'name': op, 'color': '#ffb830'})] *)
Definition operator_info (op : string) : OperatorInfo :=
  default (operator op "#ffb830") (KNOWN_OPERATORS !! op).

(** The body of the loop that collects the operators. *)
Definition add_operator (operators : list (string * OperatorInfo)) (op : string)
    : list (string * OperatorInfo) :=
  if has_key op operators then operators
  else operators ++ [(op, operator_info op)].

Section Main.
Context `{Coord}.

(** [[round(p[0], 4), round(p[1], 4), p[2]]] *)
Definition reduce_waypoint (p : Waypoint) : Waypoint :=
  (round 4 p.1.1, round 4 p.1.2, p.2).

(** [t['path'] = [... for p in t['path']]] *)
Definition reduce_precision (t : Train) : Train :=
  {| train_id := train_id t;
     train_op := train_op t;
     train_from := train_from t;
     train_to := train_to t;
     train_path := map reduce_waypoint (train_path t) |}.

Definition collect_operators (trains : list Train) : list (string * OperatorInfo) :=
  fold_left (λ operators t, add_operator operators (train_op t)) trains [].

(** [main], after the tables are loaded and up to [json.dump].  [today]
    is the value of [datetime.now().strftime('%Y-%m-%d')]. *)
Definition main (today : string) (feed : list FeedLine)
    (tiploc_to_crs : gmap string string) (stations : gmap string Station)
    : Output :=
  let trains := process_schedule tiploc_to_crs stations feed in
  let trains := List.filter (λ t, is_known (train_op t)) trains in
  let trains := map reduce_precision trains in
  let operators := collect_operators trains in
  {| meta := {| meta_date := today;
                total_trains := length trains;
                meta_source := "Network Rail SCHEDULE" |};
     operators := operators;
     trains := trains |}.

End Main.

(** ** Sample data *)

Module Sample.

(** Coordinates in units of 1e-5 degree; rounding to fewer than five
    decimals goes to the nearest multiple of the coarser unit. *)
Definition fixed_round (ndigits : nat) (x : Z) : Z :=
  if (5 <=? ndigits)%nat then x
  else let u := 10 ^ Z.of_nat (5 - ndigits) in u * ((2 * x + u) / (2 * u)).

Definition fixed : Coord := {| coord := Z; round := fixed_round |}.

Definition tiploc_to_crs : gmap string string :=
  list_to_map [("EUSTON", "EUS"); ("BHAMNWS", "BHM"); ("MNCRPIC", "MAN")].

Definition station (n : string) (la ln : Z) : @Station fixed :=
  @Build_Station fixed n la ln.

Definition stations : gmap string (@Station fixed) :=
  list_to_map [
    ("EUS", station "London Euston" 5152814 (-13389));
    ("BHM", station "Birmingham New Street" 5247782 (-189885));
    ("MAN", station "Manchester Piccadilly" 5347736 (-223091))
  ].

Definition stop (tiploc : string) (dep arr : option string) : Location :=
  {| tiploc_code := Some tiploc; departure := dep; arrival := arr; pass := None |}.

Definition schedule (uid stp toc : string) (locs : list Location) : FeedLine :=
  ScheduleRecord
    {| CIF_train_uid := Some uid;
       CIF_stp_indicator := Some stp;
       schedule_days_runs := Some "1111100";
       atoc_code := Some toc;
       schedule_location := locs |}.

Definition version (u s : string) (locs : list Location) : Version :=
  {| uid := u; stp := s; toc := "VT"; locations := locs |}.

Definition out_and_back : list Location :=
  [stop "EUSTON" (Some "0805") None;
   stop "BHAMNWS" (Some "0930H") (Some "0928");
   stop "MNCRPIC" None (Some "1012")].

(** The declared order runs against the clock: the last raw stop has
    the earliest time. *)
Definition against_the_clock : list Location :=
  [stop "EUSTON" (Some "1000") None;
   stop "BHAMNWS" (Some "0900") None;
   stop "MNCRPIC" None (Some "0800")].

Definition base : Version := version "X1" "P" out_and_back.
Definition overlay_a : Version := version "X1" "O" out_and_back.
Definition overlay_b : Version := version "X1" "O" against_the_clock.

Definition feed : list FeedLine :=
  [schedule "X1" "P" "VT" out_and_back;
   Malformed;
   schedule "X2" "P" "VT" against_the_clock;
   schedule "X1" "O" "VT" against_the_clock;
   schedule "X3" "P" "ZZ" out_and_back;
   schedule "X4" "P" "XC" out_and_back;
   schedule "X4" "C" "XC" out_and_back;
   schedule "X5" "Q" "LM" out_and_back;
   OtherRecord].


(** The selected variants of X4 (a cancellation) and X5 (an indicator
    that [STP_PRIORITY] does not list). *)
Definition cancelled : Version :=
  {| uid := "X4"; stp := "C"; toc := "XC"; locations := out_and_back |}.

(** The train of X2 in the final output, and the train of X3 as
    [process_schedule] returns it. *)
Definition x2_train : @Train fixed :=
  @Build_Train fixed "X2" "VT" "London Euston" "Manchester Piccadilly"
    [(-223090, 5347740, 28800); (-189880, 5247780, 32400);
     (-13390, 5152810, 36000)].
Definition x3_train : @Train fixed :=
  @Build_Train fixed "X3" "ZZ" "London Euston" "Manchester Piccadilly"
    [(-13389, 5152814, 29100); (-189885, 5247782, 34230);
     (-223091, 5347736, 36720)].

(** A stop that leaves at midnight after arriving at 23:58, and an
    origin that leaves at midnight. *)
Definition midnight_call : Location := stop "BHAMNWS" (Some "0000") (Some "2358").
Definition midnight_origin : Location := stop "EUSTON" (Some "0000") None.

Definition today : string := "2024-03-05".

Definition output : @Output fixed := @main fixed today feed tiploc_to_crs stations.
End Sample.

(** ** Loading the reference tables *)

(** An element of [TIPLOCDATA]: the keys ['TIPLOC'] and ['3ALPHA']; a
    field is [None] when the key is missing. *)
Record CorpusEntry := {
  TIPLOC : option string;
  ALPHA3 : option string
}.

(** The body of the loop of [load_corpus]: the pair stored for an entry,
    or [None] when [tiploc and crs] is false. *)
Definition corpus_pair (entry : CorpusEntry) : option (string * string) :=
  let tiploc := PyStr.strip (default EmptyString (TIPLOC entry)) in
  let crs := PyStr.strip (default EmptyString (ALPHA3 entry)) in
  if PyStr.truthy (Some tiploc) && PyStr.truthy (Some crs)
  then Some (tiploc, crs) else None.

(** The loop of [load_corpus], from any table. *)
Definition corpus_from (tiploc_to_crs : gmap string string)
    (tiplocdata : list CorpusEntry) : gmap string string :=
  fold_left
    (λ tiploc_to_crs entry,
       match corpus_pair entry with
       | Some (tiploc, crs) => <[tiploc := crs]> tiploc_to_crs
       | None => tiploc_to_crs
       end)
    tiplocdata tiploc_to_crs.

(** [load_corpus], on [data.get('TIPLOCDATA', [])]. *)
Definition load_corpus (tiplocdata : list CorpusEntry) : gmap string string :=
  corpus_from ∅ tiplocdata.

(** A row of [csv.DictReader]: the value of a column is [None] (Python's
    [None]) in a row that is shorter than the header. *)
Definition row_get (row : gmap string (option string)) (key : string)
    (dflt : option string) : option string :=
  default dflt (row !! key).

(** The four spellings that [load_stations] tries for each column. *)
Definition crs_column (row : gmap string (option string)) : option string :=
  row_get row "CRS" (row_get row "crs" (row_get row "StationCode"
    (row_get row "3alpha" (Some EmptyString)))).
Definition lat_column (row : gmap string (option string)) : option string :=
  row_get row "Latitude" (row_get row "lat"
    (row_get row "latitude" (Some EmptyString))).
Definition lng_column (row : gmap string (option string)) : option string :=
  row_get row "Longitude" (row_get row "lng"
    (row_get row "longitude" (Some EmptyString))).
Definition name_column (row : gmap string (option string)) (crs : string)
    : option string :=
  row_get row "StationName" (row_get row "name" (row_get row "Name"
    (row_get row "station_name" (Some crs)))).

Section Stations.
Context `{Coord}.
(** [float(s)] on a string; [None] stands for [ValueError]. *)
Context (py_float : string → option coord).

(** The body of the loop of [load_stations].  The result [None] stands
    for the [AttributeError] of [None.strip()], which the function does
    not catch. *)
Definition station_row (stations : gmap string Station)
    (row : gmap string (option string)) : option (gmap string Station) :=
  match crs_column row with
  | None => None
  | Some c =>
      let crs := PyStr.strip c in
      let lat := lat_column row in
      let lng := lng_column row in
      let name := name_column row crs in
      if PyStr.truthy (Some crs) && PyStr.truthy lat && PyStr.truthy lng then
        match name with
        | None => None
        | Some n =>
            match lat ≫= py_float, lng ≫= py_float with
            | Some x, Some y =>
                Some (<[crs := {| name := PyStr.strip n; lat := x; lng := y |}]>
                        stations)
            | _, _ => Some stations
            end
        end
      else Some stations
  end.

(** The loop of [load_stations], from any state; once the state is
    [None] it stays [None]. *)
Definition stations_from (acc : option (gmap string Station))
    (rows : list (gmap string (option string))) : option (gmap string Station) :=
  fold_left (λ acc row, acc ≫= λ stations, station_row stations row) rows acc.

(** [load_stations], on the rows of the reader. *)
Definition load_stations (rows : list (gmap string (option string)))
    : option (gmap string Station) :=
  stations_from (Some ∅) rows.

(** [main] from the three sources: the tables are loaded, then the feed
    is processed. *)
Definition main_from_sources (today : string) (tiplocdata : list CorpusEntry)
    (rows : list (gmap string (option string))) (feed : list FeedLine)
    : option Output :=
  let tiploc_to_crs := load_corpus tiplocdata in
  stations ← load_stations rows;
  Some (main today feed tiploc_to_crs stations).
End Stations.

(** ** Insertion order *)

(** The distinct elements of a list in the order of their first
    occurrence: the key order of a dictionary filled from the list. *)
Fixpoint first_seen (l : list string) : list string :=
  match l with
  | [] => []
  | x :: r => x :: filter (λ y, y ≠ x) (first_seen r)
  end.

(** The keys of an insertion-ordered dictionary after a key is set: a
    new key goes last, a key that is there stays where it is. *)
Definition key_step (keys : list string) (k : string) : list string :=
  if decide (k ∈ keys) then keys else keys ++ [k].

(** The uids of the lines that are kept, in the order of the feed. *)
Definition feed_uids (feed : list FeedLine) : list string :=
  uid <$> omap line_version feed.

(** ** Sample tables *)

Module SampleTables.

Definition corpus : list CorpusEntry :=
  [{| TIPLOC := Some "EUSTON "; ALPHA3 := Some "EUX" |};
   {| TIPLOC := Some "WATRLOO"; ALPHA3 := Some "   " |};
   {| TIPLOC := Some " BHAMNWS"; ALPHA3 := Some "BHM" |};
   {| TIPLOC := None; ALPHA3 := Some "ZZZ" |};
   {| TIPLOC := Some "EUSTON"; ALPHA3 := Some " EUS" |};
   {| TIPLOC := Some "MNCRPIC"; ALPHA3 := Some "MAN" |}].

(** A toy [float] for the fixed-point coordinates: an integer count of
    1e-5 degrees. *)
Definition fixed_float (s : string) : option Z := PyStr.int s.

Definition row (crs nm la ln : string) : gmap string (option string) :=
  list_to_map [("CRS", Some crs); ("StationName", Some nm);
               ("Latitude", Some la); ("Longitude", Some ln)].

Definition rows : list (gmap string (option string)) :=
  [row "EUS " " London Euston" "5152814" "-13389";
   row "BHM" "Birmingham New Street" "5247782" "-189885";
   row "XXX" "Nowhere" "north" "-1";
   row EmptyString "Unnamed" "1" "1";
   row "MAN" "Manchester Piccadilly" "5347736" "-223091"].

(** A row that is shorter than the header: the name column is [None]. *)
Definition short_row : gmap string (option string) :=
  list_to_map [("CRS", Some "YRK"); ("StationName", None);
               ("Latitude", Some "5395800"); ("Longitude", Some "-109300")].

End SampleTables.

(** * Properties *)

(** ** Strings and the Time Codec *)

Module PyStrFacts.
Import PyStr.

Lemma digit_not_space c : is_digit c = true → is_space c = false.
Proof.
  destruct c as [[] [] [] [] [] [] [] []]; vm_compute; congruence.
Qed.

Lemma lstrip_keep c s : is_space c = false → lstrip (String c s) = String c s.
Proof. intros Hc. simpl. by rewrite Hc. Qed.

Lemma rstrip_keep c s : is_space c = false → rstrip (String c s) = String c (rstrip s).
Proof. intros Hc. simpl. rewrite Hc. by destruct (rstrip s). Qed.

Lemma strip_keep c s : is_space c = false → strip (String c s) = String c (rstrip s).
Proof. intros Hc. unfold strip. by rewrite lstrip_keep, rstrip_keep. Qed.

(** Stripping on the right leaves a first character in place, or
    removes everything. *)
Lemma rstrip_head s :
  rstrip s = EmptyString ∨ ∃ c r r', s = String c r ∧ rstrip s = String c r'.
Proof.
  destruct s as [|c r]; [by left|]. simpl.
  destruct (rstrip r) eqn:E.
  - destruct (is_space c); [by left | right; eauto].
  - right; eauto.
Qed.

Lemma rstrip_length s : (String.length (rstrip s) ≤ String.length s)%nat.
Proof.
  induction s as [|c r IH]; simpl; [lia|].
  destruct (rstrip r); [destruct (is_space c)|]; simpl in *; lia.
Qed.

Lemma lstrip_length s : (String.length (lstrip s) ≤ String.length s)%nat.
Proof.
  induction s as [|c r IH]; simpl; [lia|].
  destruct (is_space c); simpl; lia.
Qed.

Lemma strip_length s : (String.length (strip s) ≤ String.length s)%nat.
Proof.
  unfold strip. etrans; [apply rstrip_length | apply lstrip_length].
Qed.

Lemma has_char_at_rstrip c s :
  is_space c = false → has_char_at 0 c (rstrip s) = has_char_at 0 c s.
Proof.
  intros Hc. destruct s as [|d r]; [done|].
  unfold has_char_at. simpl.
  destruct (rstrip r); [|done].
  destruct (is_space d) eqn:Hd; [|done]. simpl.
  destruct (Ascii.eqb_spec d c); congruence.
Qed.

(** [int] on two decimal digits. *)
Lemma int_two_digits a b :
  is_digit a = true → is_digit b = true →
  int (String a (String b EmptyString)) = Some (10 * digit_val a + digit_val b).
Proof.
  intros Ha Hb. unfold int.
  rewrite strip_keep, rstrip_keep by by apply digit_not_space.
  destruct a as [[] [] [] [] [] [] [] []]; try discriminate Ha;
    cbn -[Z.mul Z.add digit_val]; by rewrite Hb.
Qed.

Lemma int_empty : int EmptyString = None.
Proof. reflexivity. Qed.

(** [t[:2]] and [t[2:4]] of a string of four characters or more. *)
Lemma slice_hour a b s :
  slice 0 2 (String a (String b s)) = String a (String b EmptyString).
Proof. unfold slice. simpl. by destruct s. Qed.

Lemma slice_minute a b c d s :
  slice 2 4 (String a (String b (String c (String d s))))
  = String c (String d EmptyString).
Proof. unfold slice. simpl. by destruct s. Qed.

End PyStrFacts.

(** A token that starts with four decimal digits decodes to
    [hour*3600 + minute*60], and to 30 more exactly when its fifth
    character is ['H']. *)
Lemma parse_time_four_digits (a b c d : ascii) (rest : string) :
  PyStr.is_digit a = true → PyStr.is_digit b = true →
  PyStr.is_digit c = true → PyStr.is_digit d = true →
  parse_time (Some (String a (String b (String c (String d rest)))))
  = Some (two_digits a b * 3600 + two_digits c d * 60
          + (if PyStr.has_char_at 0 "H" rest then 30 else 0)).
Proof.
  intros Ha Hb Hc Hd. unfold parse_time.
  pose proof (PyStrFacts.digit_not_space _ Ha) as Sa.
  pose proof (PyStrFacts.digit_not_space _ Hb) as Sb.
  pose proof (PyStrFacts.digit_not_space _ Hc) as Sc.
  pose proof (PyStrFacts.digit_not_space _ Hd) as Sd.
  rewrite PyStrFacts.strip_keep by done.
  rewrite !PyStrFacts.rstrip_keep by done.
  cbn [PyStr.truthy negb orb String.eqb].
  rewrite PyStrFacts.slice_hour, PyStrFacts.slice_minute.
  rewrite !PyStrFacts.int_two_digits by done.
  change (PyStr.has_char_at 4 ?x (String a (String b (String c (String d ?s)))))
    with (PyStr.has_char_at 0 x s).
  by rewrite PyStrFacts.has_char_at_rstrip.
Qed.

(** [None], the empty token and a token of whitespace decode to [None]. *)
Lemma parse_time_blank (time_str : option string) :
  from_option (λ s, PyStr.strip s = EmptyString) True time_str →
  parse_time time_str = None.
Proof.
  destruct time_str as [s|]; [|done]. unfold parse_time. simpl. intros ->.
  by rewrite orb_true_r.
Qed.

(** A token of at most two characters (after stripping) decodes to
    [None]: its minute slice is empty. *)
Lemma parse_time_short (s : string) :
  (String.length (PyStr.strip s) ≤ 2)%nat → parse_time (Some s) = None.
Proof.
  intros Hlen. unfold parse_time.
  destruct (_ || _); [done|].
  replace (PyStr.slice 2 4 (PyStr.strip s)) with EmptyString.
  - rewrite PyStrFacts.int_empty. by destruct (PyStr.int _).
  - destruct (PyStr.strip s) as [|a [|b [|c r]]]; simpl in *; try done; lia.
Qed.

(** C5: the Time Codec does not return [None] on every too-short token.
    The token ["125"] has three characters, one fewer than hour and minute
    need; [t[2:4]] is then the one-character slice ["5"], which [int]
    accepts, and the result is 12:05, that is 43500 seconds.  (The slices
    never raise the [IndexError] that the handler is written for.) *)
Theorem parse_time_three_characters :
  String.length "125" = 3%nat ∧ parse_time (Some "125") = Some 43500.
Proof. split; reflexivity. Qed.

(** ** Day-Pattern Selector *)

(** C8: [is_tuesday] answers [true] when the pattern is missing or has
    fewer than 7 characters; otherwise it answers [true] exactly when the
    character at index 1 is ['1']. *)
Theorem is_tuesday_spec :
  is_tuesday None = true
  ∧ (∀ d, (String.length d < 7)%nat → is_tuesday (Some d) = true)
  ∧ (∀ d, (7 ≤ String.length d)%nat →
       (is_tuesday (Some d) = true ↔ get 1 d = Some "1"%char)).
Proof.
  split; [done|]. split.
  - intros d Hd. unfold is_tuesday.
    apply Nat.ltb_lt in Hd. rewrite Hd. by rewrite orb_true_r.
  - intros d Hd. unfold is_tuesday.
    assert ((String.length d <? 7)%nat = false) as -> by (apply Nat.ltb_ge; lia).
    destruct d as [|c r]; [simpl in Hd; lia|].
    cbn [PyStr.truthy negb orb]. unfold PyStr.has_char_at.
    destruct (get 1 (String c r)) as [x|]; [|split; discriminate].
    destruct (Ascii.eqb_spec x "1"%char); split; congruence.
Qed.

Lemma is_tuesday_spec_witness :
  is_tuesday (Some "11111") = true
  ∧ (is_tuesday (Some "0100000") = true ↔ get 1 "0100000" = Some "1"%char).
Proof.
  destruct is_tuesday_spec as (_ & Hshort & Hlong). split.
  - apply Hshort. simpl. lia.
  - apply Hlong. simpl. lia.
Defined.

(** ** The stable sort *)

Section SortFacts.
Context {A : Type} (key : A → Z).
Implicit Types (x y : A) (l : list A) (reverse : bool).

Lemma goes_before_total reverse x y :
  goes_before key reverse x y = false → goes_before key reverse y x = true.
Proof. unfold goes_before. destruct reverse; lia. Qed.

Lemma goes_before_trans reverse x y z :
  goes_before key reverse x y = true → goes_before key reverse y z = true →
  goes_before key reverse x z = true.
Proof. unfold goes_before. destruct reverse; lia. Qed.

Lemma goes_before_strict reverse x y :
  goes_before key reverse x y = false → key x ≠ key y.
Proof. unfold goes_before. destruct reverse; lia. Qed.

Lemma sort_insert_perm reverse x l : sort_insert key reverse x l ≡ₚ x :: l.
Proof.
  induction l as [|y l IH]; simpl; [done|].
  destruct (goes_before key reverse x y); [done|].
  rewrite IH. apply perm_swap.
Qed.

Lemma py_sort_perm reverse l : py_sort key reverse l ≡ₚ l.
Proof.
  induction l as [|x l IH]; simpl; [done|].
  by rewrite sort_insert_perm, IH.
Qed.

Lemma py_sort_length reverse l : length (py_sort key reverse l) = length l.
Proof. by rewrite py_sort_perm. Qed.

Lemma sort_insert_sorted reverse x l :
  StronglySorted (λ a b, goes_before key reverse a b = true) l →
  StronglySorted (λ a b, goes_before key reverse a b = true)
    (sort_insert key reverse x l).
Proof.
  induction 1 as [|y l Hl IH Hy]; simpl.
  - repeat constructor.
  - destruct (goes_before key reverse x y) eqn:E.
    + constructor; [by constructor|].
      constructor; [done|].
      eapply Forall_impl; [exact Hy|]. intros z. by apply goes_before_trans.
    + constructor; [done|].
      rewrite sort_insert_perm. constructor; [|done].
      by apply goes_before_total.
Qed.

Lemma py_sort_sorted reverse l :
  StronglySorted (λ a b, goes_before key reverse a b = true)
    (py_sort key reverse l).
Proof.
  induction l as [|x l IH]; simpl; [constructor|].
  by apply sort_insert_sorted.
Qed.

(** Stability: the elements of any one key keep their relative order. *)
Lemma sort_insert_stable reverse (k : Z) x l :
  filter (λ y, key y = k) (sort_insert key reverse x l)
  = filter (λ y, key y = k) (x :: l).
Proof.
  induction l as [|y l IH]; simpl; [done|].
  destruct (goes_before key reverse x y) eqn:E; [done|].
  apply goes_before_strict in E.
  rewrite filter_cons, IH, !filter_cons.
  repeat case_decide; congruence.
Qed.

Lemma py_sort_stable reverse (k : Z) l :
  filter (λ y, key y = k) (py_sort key reverse l) = filter (λ y, key y = k) l.
Proof.
  induction l as [|x l IH]; simpl; [done|].
  by rewrite sort_insert_stable, !filter_cons, IH.
Qed.

(** With [reverse=True] the first element of the result is the first
    element of the input whose key is the greatest. *)
Lemma py_sort_reverse_head l1 w l2 :
  (∀ v, v ∈ l1 → key v < key w) →
  (∀ v, v ∈ l2 → key v ≤ key w) →
  head (py_sort key true (l1 ++ w :: l2)) = Some w.
Proof.
  intros H1 H2. induction l1 as [|v l1 IH]; simpl.
  - destruct (py_sort key true l2) as [|y s] eqn:E; [done|]. simpl.
    assert (key y ≤ key w) as Hy.
    { apply H2. rewrite <- (py_sort_perm true l2), E. left. }
    unfold goes_before. by rewrite (proj2 (Z.leb_le _ _) Hy).
  - assert (key v < key w) as Hv by (apply H1; left).
    specialize (IH (λ u Hu, H1 u (list_elem_of_further _ _ _ Hu))).
    destruct (py_sort key true (l1 ++ w :: l2)) as [|y s]; [done|].
    simpl in IH. injection IH as ->. simpl.
    unfold goes_before. by rewrite (proj2 (Z.leb_gt _ _) Hv).
Qed.

(** Every non-empty list splits at the first occurrence of its
    greatest key. *)
Lemma first_greatest_split l :
  l ≠ [] →
  ∃ l1 w l2, l = l1 ++ w :: l2
    ∧ (∀ v, v ∈ l1 → key v < key w)
    ∧ (∀ v, v ∈ l2 → key v ≤ key w).
Proof.
  induction l as [|x l IH]; [done|]. intros _.
  destruct l as [|y l'].
  { exists [], x, []. split; [done|]. split; intros v Hv; inversion Hv. }
  destruct IH as (l1 & w & l2 & E & H1 & H2); [done|].
  destruct (Z_lt_le_dec (key x) (key w)) as [Hlt|Hle].
  - exists (x :: l1), w, l2. rewrite E. split; [done|]. split; [|done].
    intros v [->|Hv]%elem_of_cons; auto.
  - exists [], x, (y :: l'). split; [done|].
    split; [intros v Hv; inversion Hv|].
    intros v Hv. rewrite E in Hv.
    apply elem_of_app in Hv as [Hv|[->|Hv]%elem_of_cons].
    + specialize (H1 v Hv). lia.
    + done.
    + specialize (H2 v Hv). lia.
Qed.

Lemma py_sort_nil_inv reverse l : py_sort key reverse l = [] → l = [].
Proof.
  intros E. apply nil_length_inv.
  by rewrite <- (py_sort_length reverse l), E.
Qed.
End SortFacts.

(** ** Grouping *)

Section GroupFacts.
Implicit Types (d : list (string * list Version)) (k : string) (v : Version).

Lemma dict_get_append k k' v d :
  dict_get k (dict_append k' v d)
  = if decide (k' = k) then Some (default [] (dict_get k d) ++ [v])
    else dict_get k d.
Proof.
  induction d as [|[k0 vs] d IH]; simpl.
  - destruct (String.eqb_spec k' k); case_decide; congruence.
  - destruct (String.eqb_spec k0 k') as [->|Hne]; simpl.
    + destruct (String.eqb_spec k' k); case_decide; simpl; congruence.
    + rewrite IH. destruct (String.eqb_spec k0 k) as [->|]; [|done].
      case_decide; congruence.
Qed.

(** The entry of a uid after the whole feed is read: what was there,
    followed by the running variants of that uid in feed order. *)
Lemma dict_get_ingest k feed d :
  dict_get k (fold_left ingest_line feed d)
  = match dict_get k d, variants k feed with
    | None, [] => None
    | o, new => Some (default [] o ++ new)
    end.
Proof.
  revert d. induction feed as [|line feed IH]; intros d; simpl.
  - unfold variants. simpl. destruct (dict_get k d); [|done].
    simpl. by rewrite app_nil_r.
  - rewrite IH. unfold ingest_line, variants. simpl.
    destruct (line_version line) as [v|]; [|done].
    rewrite dict_get_append, filter_cons.
    case_decide; [|done].
    destruct (dict_get k d) as [old|]; simpl.
    + rewrite <- app_assoc. simpl.
      by destruct (filter _ _).
    + by destruct (filter _ _).
Qed.

Lemma dict_get_group_by_uid k feed :
  dict_get k (group_by_uid feed)
  = match variants k feed with [] => None | vs => Some vs end.
Proof. unfold group_by_uid. by rewrite dict_get_ingest. Qed.

Lemma dict_append_keys k v d :
  (dict_append k v d).*1 = if decide (k ∈ d.*1) then d.*1 else d.*1 ++ [k].
Proof.
  induction d as [|[k0 vs] d IH]; [done|]. csimpl.
  destruct (String.eqb_spec k0 k) as [->|Hne]; csimpl.
  - rewrite decide_True; [done | left].
  - rewrite IH. case_decide as Hin.
    + rewrite decide_True; [done | by right].
    + rewrite decide_False; [done|].
      intros [?|?]%elem_of_cons; congruence.
Qed.

Lemma ingest_keys_nodup feed d :
  NoDup d.*1 → NoDup (fold_left ingest_line feed d).*1.
Proof.
  revert d. induction feed as [|line feed IH]; intros d Hd; simpl; [done|].
  apply IH. unfold ingest_line.
  destruct (line_version line) as [v|]; [|done].
  rewrite dict_append_keys. case_decide as Hin; [done|].
  apply NoDup_app. split; [done|]. split.
  - intros x Hx ->%list_elem_of_singleton. done.
  - apply NoDup_singleton.
Qed.

Lemma dict_get_elem k (vs : list Version) d :
  NoDup d.*1 → (k, vs) ∈ d → dict_get k d = Some vs.
Proof.
  induction d as [|[k0 vs0] d IH]; simpl; intros Hnd Hin; [inversion Hin|].
  apply NoDup_cons in Hnd as [Hk0 Hnd].
  apply elem_of_cons in Hin as [[= <- <-]|Hin].
  - by rewrite String.eqb_refl.
  - destruct (String.eqb_spec k0 k) as [->|]; [|by apply IH].
    exfalso. apply Hk0. apply list_elem_of_fmap. by exists (k, vs).
Qed.

Lemma elem_dict_get k (vs : list Version) d :
  dict_get k d = Some vs → (k, vs) ∈ d.
Proof.
  induction d as [|[k0 vs0] d IH]; simpl; [done|].
  destruct (String.eqb_spec k0 k) as [->|].
  - intros [= ->]. left.
  - intros Hd. right. by apply IH.
Qed.

(** The groups are exactly the non-empty lists of variants. *)
Lemma group_by_uid_elem k (vs : list Version) feed :
  (k, vs) ∈ group_by_uid feed ↔ vs ≠ [] ∧ vs = variants k feed.
Proof.
  split.
  - intros Hin. apply dict_get_elem in Hin.
    + rewrite dict_get_group_by_uid in Hin.
      destruct (variants k feed); [done|]. by injection Hin as <-.
    + apply ingest_keys_nodup. constructor.
  - intros [Hne ->]. apply elem_dict_get.
    rewrite dict_get_group_by_uid. by destruct (variants k feed).
Qed.

(** What a stored variant looks like. *)
Lemma line_version_inv line v :
  line_version line = Some v →
  uid v ≠ EmptyString ∧ locations v ≠ []
  ∧ ∃ sched, line = ScheduleRecord sched
      ∧ stp v = default "P" (CIF_stp_indicator sched)
      ∧ is_tuesday (Some (default EmptyString (schedule_days_runs sched))) = true.
Proof.
  destruct line as [| |sched]; try done.
  unfold line_version.
  destruct (String.eqb_spec (default EmptyString (CIF_train_uid sched)) EmptyString) as [|Hu];
    simpl; [done|].
  destruct (schedule_location sched) as [|loc locs] eqn:El; simpl; [done|].
  destruct (is_tuesday (Some (default EmptyString (schedule_days_runs sched)))) eqn:Et;
    simpl; [|done].
  intros [= <-]. simpl. split; [done|]. split; [done|]. by exists sched.
Qed.

Lemma variants_inv k feed v :
  v ∈ variants k feed →
  uid v = k ∧ ∃ line, line ∈ feed ∧ line_version line = Some v.
Proof.
  unfold variants. intros [Hk Hv]%list_elem_of_filter.
  apply list_elem_of_omap in Hv. done.
Qed.
End GroupFacts.

(** ** Override Resolver *)

Section SelectFacts.
Implicit Types (v best : Version) (versions : list Version).

Lemma stp_priority_of v :
  stp_priority v
  = if decide (stp v = "C") then 4
    else if decide (stp v = "N") then 3
    else if decide (stp v = "O") then 2
    else if decide (stp v = "P") then 1
    else 0.
Proof.
  unfold stp_priority, STP_PRIORITY. simpl.
  rewrite !lookup_insert, lookup_empty.
  repeat case_decide; simplify_eq; done.
Qed.



Lemma select_best_first_greatest l1 best l2 :
  (∀ v, v ∈ l1 → stp_priority v < stp_priority best) →
  (∀ v, v ∈ l2 → stp_priority v ≤ stp_priority best) →
  select_best (l1 ++ best :: l2) = Some best.
Proof. apply py_sort_reverse_head. Qed.

Lemma select_best_split versions best :
  select_best versions = Some best →
  ∃ l1 l2, versions = l1 ++ best :: l2
    ∧ (∀ v, v ∈ l1 → stp_priority v < stp_priority best)
    ∧ (∀ v, v ∈ l2 → stp_priority v ≤ stp_priority best).
Proof.
  intros Hsel.
  destruct (first_greatest_split stp_priority versions)
    as (l1 & w & l2 & E & H1 & H2).
  { intros ->. discriminate Hsel. }
  pose proof (select_best_first_greatest l1 w l2 H1 H2) as Hw.
  rewrite <- E, Hsel in Hw. injection Hw as ->. eauto.
Qed.

Lemma select_best_greatest versions best v :
  select_best versions = Some best → v ∈ versions →
  stp_priority v ≤ stp_priority best.
Proof.
  intros (l1 & l2 & -> & H1 & H2)%select_best_split Hv.
  apply elem_of_app in Hv as [Hv|[->|Hv]%elem_of_cons].
  - specialize (H1 v Hv). lia.
  - lia.
  - by apply H2.
Qed.

Lemma select_best_is_Some versions :
  versions ≠ [] → is_Some (select_best versions).
Proof.
  intros Hne. unfold select_best.
  destruct (py_sort stp_priority true versions) eqn:E; [|by eexists].
  by apply py_sort_nil_inv in E.
Qed.
End SelectFacts.

(** ** Path Builder and pipeline *)

(** Python's [or] keeps the first operand that is neither [None] nor [0]:
    when no parsed time is zero, the time of a stop is the first of
    departure, arrival and pass that parses. *)
Lemma stop_time_preference (loc : Location) :
  parse_time (departure loc) ≠ Some 0 →
  parse_time (arrival loc) ≠ Some 0 →
  stop_time loc
  = match parse_time (departure loc) with
    | Some t => Some t
    | None =>
        match parse_time (arrival loc) with
        | Some t => Some t
        | None => parse_time (pass loc)
        end
    end.
Proof.
  unfold stop_time, py_or. intros Hd Ha.
  destruct (parse_time (departure loc)) as [[| |]|];
    destruct (parse_time (arrival loc)) as [[| |]|]; done.
Qed.

Section PipelineFacts.
Context `{Coord}.
Context (tiploc_to_crs : gmap string string) (stations : gmap string Station).

Local Abbreviation waypoint := (waypoint tiploc_to_crs stations).
Local Abbreviation resolve := (resolve tiploc_to_crs stations).
Local Abbreviation endpoint := (endpoint tiploc_to_crs stations).
Local Abbreviation build_train := (build_train tiploc_to_crs stations).
Local Abbreviation process_uid := (process_uid tiploc_to_crs stations).
Local Abbreviation process_schedule := (process_schedule tiploc_to_crs stations).

Implicit Types (t : Train) (best v : Version) (loc : Location).

Lemma waypoint_None loc :
  waypoint loc = None ↔ resolve (stop_tiploc loc) = None ∨ stop_time loc = None.
Proof.
  unfold waypoint.
  destruct (resolve (stop_tiploc loc)); [|by split; auto].
  destruct (stop_time loc); split; try done; [intros [|]; done | by right].
Qed.

Lemma waypoint_time loc p : waypoint loc = Some p → stop_time loc = Some (wp_time p).
Proof.
  unfold waypoint.
  destruct (resolve (stop_tiploc loc)); [|done].
  destruct (stop_time loc); [|done]. by intros [= <-].
Qed.

(** Where the location resolves, the table lookup made for the origin
    and destination finds the same station. *)
Lemma endpoint_resolve loc stn :
  resolve (stop_tiploc loc) = Some stn → endpoint loc = Some stn.
Proof.
  unfold resolve, endpoint.
  destruct (tiploc_to_crs !! stop_tiploc loc) as [crs|]; [|done]. simpl.
  by destruct (crs =? EmptyString)%string.
Qed.

Lemma endpoint_unresolved loc :
  stations !! EmptyString = None →
  resolve (stop_tiploc loc) = None → endpoint loc = None.
Proof.
  unfold resolve, endpoint. intros Hempty.
  destruct (tiploc_to_crs !! stop_tiploc loc) as [crs|]; [|done]. simpl.
  by destruct (String.eqb_spec crs EmptyString) as [->|].
Qed.

Lemma omap_length_le {A B} (f : A → option B) (l : list A) :
  (length (omap f l) ≤ length l)%nat.
Proof.
  induction l as [|x l IH]; csimpl; [lia|].
  destruct (f x); csimpl; lia.
Qed.

Lemma build_train_inv uid best t :
  build_train uid best = Some t →
  train_id t = uid ∧ train_op t = toc best
  ∧ (2 ≤ length (omap waypoint (locations best)))%nat
  ∧ train_path t = py_sort wp_time false (omap waypoint (locations best))
  ∧ ∃ first final,
      head (locations best) = Some first ∧ last (locations best) = Some final
      ∧ train_from t = display_name (endpoint first)
      ∧ train_to t = display_name (endpoint final).
Proof.
  unfold build_train.
  destruct (Nat.ltb_spec (length (omap waypoint (locations best))) 2); [done|].
  destruct (head (locations best)) as [first|]; [|done].
  destruct (last (locations best)) as [final|]; [|done].
  intros [= <-]. simpl. do 4 (split; [done|]). by exists first, final.
Qed.

(** The [IndexError] case of [build_train] is never taken. *)
Lemma build_train_is_Some uid best :
  (2 ≤ length (omap waypoint (locations best)))%nat →
  is_Some (build_train uid best).
Proof.
  intros Hlen. unfold build_train.
  destruct (Nat.ltb_spec (length (omap waypoint (locations best))) 2); [lia|].
  pose proof (omap_length_le waypoint (locations best)) as Hle.
  destruct (locations best) as [|first locs] eqn:E; [csimpl in *; lia|].
  simpl head. destruct (last (first :: locs)) eqn:El; [by eexists|].
  by apply last_None in El.
Qed.

Lemma build_train_None uid best :
  (length (omap waypoint (locations best)) < 2)%nat →
  build_train uid best = None.
Proof.
  intros Hlen. unfold build_train.
  by destruct (Nat.ltb_spec (length (omap waypoint (locations best))) 2); [|lia].
Qed.

Lemma process_uid_inv uid versions t :
  process_uid (uid, versions) = Some t →
  ∃ best, select_best versions = Some best ∧ stp best ≠ "C"
    ∧ build_train uid best = Some t.
Proof.
  unfold process_uid. simpl.
  destruct (select_best versions) as [best|]; [|done].
  destruct (String.eqb_spec (stp best) "C"); [done|]. eauto.
Qed.

Lemma process_uid_selected uid versions best :
  select_best versions = Some best →
  process_uid (uid, versions)
  = if decide (stp best = "C") then None else build_train uid best.
Proof.
  unfold process_uid. simpl. intros ->.
  destruct (String.eqb_spec (stp best) "C"); by case_decide.
Qed.

(** The trains extracted are those of the uid groups. *)
Lemma process_schedule_elem feed t :
  t ∈ process_schedule feed
  ↔ ∃ uid, process_uid (uid, variants uid feed) = Some t.
Proof.
  unfold process_schedule. rewrite list_elem_of_omap. split.
  - intros ([uid vs] & Hin & Ht).
    apply group_by_uid_elem in Hin as [_ ->]. eauto.
  - intros [uid Ht]. exists (uid, variants uid feed). split; [|done].
    apply group_by_uid_elem. split; [|done].
    intros E. rewrite E in Ht. discriminate Ht.
Qed.

Lemma process_schedule_id feed t :
  t ∈ process_schedule feed →
  process_uid (train_id t, variants (train_id t) feed) = Some t.
Proof.
  intros [uid Ht]%process_schedule_elem.
  pose proof Ht as (best & _ & _ & Hb)%process_uid_inv.
  apply build_train_inv in Hb as [<- _]. done.
Qed.

Lemma main_trains_elem today feed t :
  t ∈ trains (main today feed tiploc_to_crs stations)
  ↔ ∃ t0, t0 ∈ process_schedule feed ∧ is_known (train_op t0) = true
      ∧ t = reduce_precision t0.
Proof.
  unfold main. simpl. rewrite list_elem_of_fmap. split.
  - intros (t0 & -> & Hin). exists t0.
    apply list_elem_of_In, filter_In in Hin as [Hin Hk].
    by apply list_elem_of_In in Hin.
  - intros (t0 & Hin & Hk & ->). exists t0. split; [done|].
    apply list_elem_of_In, filter_In. by rewrite <- list_elem_of_In.
Qed.
End PipelineFacts.

(** ** Operators *)

Section OperatorFacts.
Context `{Coord}.
Implicit Types (ops : list (string * OperatorInfo)) (op : string).

Lemma is_known_lookup op : is_known op = true ↔ is_Some (KNOWN_OPERATORS !! op).
Proof. unfold is_known. apply bool_decide_eq_true. Qed.

Lemma operator_info_known op info :
  KNOWN_OPERATORS !! op = Some info → operator_info op = info.
Proof. unfold operator_info. by intros ->. Qed.

(** The table is a large literal; nothing below looks inside it. *)
Opaque KNOWN_OPERATORS operator_info.

Lemma has_key_elem op ops : has_key op ops = true ↔ op ∈ ops.*1.
Proof.
  unfold has_key. rewrite existsb_exists, list_elem_of_fmap. split.
  - intros (e & Hin%list_elem_of_In & <-%String.eqb_eq). eauto.
  - intros (e & -> & Hin%list_elem_of_In). exists e.
    split; [done | apply String.eqb_refl].
Qed.

Lemma add_operator_keys ops op k :
  k ∈ (add_operator ops op).*1 ↔ k ∈ ops.*1 ∨ k = op.
Proof.
  unfold add_operator. destruct (has_key op ops) eqn:E.
  - apply has_key_elem in E. split; [auto|]. by intros [?| ->].
  - rewrite fmap_app, elem_of_app. cbn [fmap list_fmap fst].
    by rewrite list_elem_of_singleton.
Qed.

Lemma add_operator_nodup ops op :
  NoDup ops.*1 → NoDup (add_operator ops op).*1.
Proof.
  intros Hnd. unfold add_operator. destruct (has_key op ops) eqn:E; [done|].
  rewrite fmap_app. apply NoDup_app. split; [done|]. split.
  - intros k Hk ->%list_elem_of_singleton.
    cbn [fst] in Hk. apply (proj2 (has_key_elem _ _)) in Hk. congruence.
  - apply NoDup_singleton.
Qed.

Lemma add_operator_info ops op k info :
  (k, info) ∈ add_operator ops op →
  (k, info) ∈ ops ∨ (k = op ∧ info = operator_info op).
Proof.
  unfold add_operator. destruct (has_key op ops); [by left|].
  rewrite elem_of_app, list_elem_of_singleton.
  intros [?|E]; [by left | right].
  by injection E as -> ->.
Qed.

Lemma collect_from_keys (ts : list Train) ops k :
  k ∈ (fold_left (λ acc t, add_operator acc (train_op t)) ts ops).*1
  ↔ k ∈ ops.*1 ∨ ∃ t, t ∈ ts ∧ train_op t = k.
Proof.
  revert ops. induction ts as [|t ts IH]; intros ops; simpl.
  - split; [auto|]. intros [?|(t & Ht & _)]; [done | inversion Ht].
  - rewrite IH, add_operator_keys. split.
    + intros [[?| ->]|(t' & Ht' & E)]; [auto| |].
      * right. exists t. split; [left | done].
      * right. exists t'. split; [by right | done].
    + intros [?|(t' & [->|Ht']%elem_of_cons & E)]; [auto|auto|].
      right. eauto.
Qed.

Lemma collect_from_nodup (ts : list Train) ops :
  NoDup ops.*1 →
  NoDup (fold_left (λ acc t, add_operator acc (train_op t)) ts ops).*1.
Proof.
  revert ops. induction ts as [|t ts IH]; intros ops Hnd; simpl; [done|].
  by apply IH, add_operator_nodup.
Qed.

Lemma collect_from_info (ts : list Train) ops k info :
  (k, info) ∈ fold_left (λ acc t, add_operator acc (train_op t)) ts ops →
  (k, info) ∈ ops
  ∨ ((∃ t, t ∈ ts ∧ train_op t = k)
     ∧ info = operator_info k).
Proof.
  revert ops. induction ts as [|t ts IH]; intros ops; simpl; [auto|].
  intros [[?|[-> ->]]%add_operator_info|[(t' & Ht' & E) ->]]%IH; [auto| |].
  - right. split; [|done]. exists t. split; [left | done].
  - right. split; [|done]. exists t'. split; [by right | done].
Qed.

Transparent KNOWN_OPERATORS operator_info.
End OperatorFacts.

(** * The pipeline against its specification *)

Section Specification.
Context `{Coord}.
Context (tiploc_to_crs : gmap string string) (stations : gmap string Station).

Local Abbreviation waypoint := (waypoint tiploc_to_crs stations).
Local Abbreviation resolve := (resolve tiploc_to_crs stations).
Local Abbreviation endpoint := (endpoint tiploc_to_crs stations).
Local Abbreviation build_train := (build_train tiploc_to_crs stations).
Local Abbreviation process_uid := (process_uid tiploc_to_crs stations).
Local Abbreviation process_schedule := (process_schedule tiploc_to_crs stations).
Local Abbreviation run := (λ today feed, main today feed tiploc_to_crs stations).

(** C2, amended: the scores are C=4, N=3, O=2, P=1; a non-empty group
    splits around its selected variant, which has the greatest score and
    is the first of the feed to have it; the other variants may be
    permuted without changing the selected variant or the train of the
    uid, as long as those that end up ahead of it have a strictly
    smaller score. *)
Theorem select_best_spec (uid : string) (versions : list Version) :
  versions ≠ [] →
  (∀ v, (stp v = "C" → stp_priority v = 4) ∧ (stp v = "N" → stp_priority v = 3)
        ∧ (stp v = "O" → stp_priority v = 2) ∧ (stp v = "P" → stp_priority v = 1))
  ∧ ∃ l1 best l2,
      versions = l1 ++ best :: l2
      ∧ select_best versions = Some best
      ∧ (∀ v, v ∈ versions → stp_priority v ≤ stp_priority best)
      ∧ (∀ v, v ∈ l1 → stp_priority v < stp_priority best)
      ∧ (∀ l1' l2',
           l1' ++ l2' ≡ₚ l1 ++ l2 →
           (∀ v, v ∈ l1' → stp_priority v < stp_priority best) →
           select_best (l1' ++ best :: l2') = Some best
           ∧ process_uid (uid, l1' ++ best :: l2') = process_uid (uid, versions)).
Proof.
  intros Hne. split.
  { intros v. rewrite stp_priority_of.
    repeat split; intros E; rewrite E; by repeat case_decide. }
  destruct (select_best_is_Some versions Hne) as [best Hbest].
  destruct (select_best_split versions best Hbest) as (l1 & l2 & E & H1 & H2).
  exists l1, best, l2. split; [done|]. split; [done|].
  split; [intros v Hv; by eapply select_best_greatest|].
  split; [done|].
  intros l1' l2' Hperm H1'.
  assert (select_best (l1' ++ best :: l2') = Some best) as Hsel.
  { apply select_best_first_greatest; [done|].
    intros v Hv. eapply select_best_greatest; [done|].
    rewrite E. apply elem_of_app.
    assert (v ∈ l1 ++ l2) as [?|?]%elem_of_app; [|by left|by right; right].
    rewrite <- Hperm. apply elem_of_app. by right. }
  split; [done|].
  by rewrite (process_uid_selected _ _ _ _ best Hsel),
    (process_uid_selected _ _ _ _ best Hbest).
Qed.


(** C4: every train of the final output has a path of at least two
    waypoints in non-decreasing order of time, whatever the order of the
    stops in the feed; and a selected variant with fewer than two
    surviving waypoints yields no train. *)
Theorem emitted_path_sorted (today : string) (feed : list FeedLine) :
  (∀ t, t ∈ trains (run today feed) →
     (2 ≤ length (train_path t))%nat
     ∧ StronglySorted (λ p q, wp_time p ≤ wp_time q) (train_path t))
  ∧ (∀ uid versions best,
       select_best versions = Some best →
       (length (omap waypoint (locations best)) < 2)%nat →
       process_uid (uid, versions) = None).
Proof.
  split.
  - intros t (t0 & Ht0 & _ & ->)%main_trains_elem.
    apply process_schedule_id, process_uid_inv in Ht0 as (best & _ & _ & Hb).
    apply build_train_inv in Hb as (_ & _ & Hlen & Hpath & _).
    simpl. rewrite Hpath, length_map, py_sort_length. split; [done|].
    generalize (py_sort_sorted wp_time false (omap waypoint (locations best))).
    generalize (py_sort wp_time false (omap waypoint (locations best))).
    induction 1 as [|p l Hl IH Hp]; simpl; constructor; [done|].
    apply Forall_forall. intros q (q0 & -> & Hq)%list_elem_of_fmap.
    rewrite Forall_forall in Hp. specialize (Hp q0 Hq).
    unfold goes_before in Hp. unfold reduce_waypoint, wp_time in *. simpl. lia.
  - intros uid versions best Hsel Hlen.
    rewrite (process_uid_selected _ _ _ _ best Hsel).
    case_decide; [done|]. by apply build_train_None.
Qed.

Lemma main_operators today feed :
  operators (run today feed) = collect_operators (trains (run today feed)).
Proof. reflexivity. Qed.

(** C6: every train of the final output has an operator of the
    allow-list, a train whose operator is not on it leaves no train of
    its uid in the output, and the operators map has one entry, taken
    from the allow-list, for exactly the operator codes of the trains of
    the output. *)
Theorem operator_filter (today : string) (feed : list FeedLine) :
  (∀ t, t ∈ trains (run today feed) → is_Some (KNOWN_OPERATORS !! train_op t))
  ∧ (∀ t0, t0 ∈ process_schedule feed →
       KNOWN_OPERATORS !! train_op t0 = None →
       ∀ t, t ∈ trains (run today feed) → train_id t ≠ train_id t0)
  ∧ (∀ op, op ∈ (operators (run today feed)).*1
           ↔ ∃ t, t ∈ trains (run today feed) ∧ train_op t = op)
  ∧ NoDup (operators (run today feed)).*1
  ∧ (∀ op info, (op, info) ∈ operators (run today feed) →
       KNOWN_OPERATORS !! op = Some info).
Proof.
  assert (∀ t, t ∈ trains (run today feed) →
            is_Some (KNOWN_OPERATORS !! train_op t)) as Hknown.
  { intros t (t0 & _ & Hk & ->)%main_trains_elem. by apply is_known_lookup. }
  split; [done|]. split; [|split; [|split]].
  - intros t0 Ht0 Hnone t (t1 & Ht1 & Hk & ->)%main_trains_elem E.
    simpl in E. apply process_schedule_id in Ht0, Ht1.
    rewrite E, Ht0 in Ht1. injection Ht1 as <-.
    apply is_known_lookup in Hk as [info Hk]. congruence.
  - intros op. rewrite main_operators. unfold collect_operators.
    rewrite collect_from_keys. split; [|auto].
    intros [Hin|?]; [inversion Hin | done].
  - rewrite main_operators. apply collect_from_nodup. constructor.
  - intros op info. rewrite main_operators. unfold collect_operators.
    intros [Hin|[(t & Ht & <-) ->]]%collect_from_info; [inversion Hin|].
    destruct (Hknown t Ht) as [info Hinfo].
    by rewrite (operator_info_known _ _ Hinfo).
Qed.

(** C7: the origin and destination names of an emitted train are the
    names of the stations that the first and the last stop of the
    selected variant's raw stop list resolve to (['?'] when it does not
    resolve, given that no station has the empty identifier); the
    time-sorted path plays no part. *)
Theorem endpoints_from_raw_stops (today : string) (feed : list FeedLine)
    (t : Train) :
  t ∈ trains (run today feed) →
  ∃ best first final,
    select_best (variants (train_id t) feed) = Some best
    ∧ head (locations best) = Some first
    ∧ last (locations best) = Some final
    ∧ (∀ stn, resolve (stop_tiploc first) = Some stn → train_from t = name stn)
    ∧ (∀ stn, resolve (stop_tiploc final) = Some stn → train_to t = name stn)
    ∧ (stations !! EmptyString = None →
         (resolve (stop_tiploc first) = None → train_from t = "?")
         ∧ (resolve (stop_tiploc final) = None → train_to t = "?")).
Proof.
  intros (t0 & Ht0 & _ & ->)%main_trains_elem. simpl.
  apply process_schedule_id, process_uid_inv in Ht0 as (best & Hsel & _ & Hb).
  apply build_train_inv
    in Hb as (_ & _ & _ & _ & first & final & Hf & Hl & -> & ->).
  exists best, first, final. do 3 (split; [done|]).
  split; [|split; [|split]].
  - intros stn Hr. by rewrite (endpoint_resolve _ _ _ _ Hr).
  - intros stn Hr. by rewrite (endpoint_resolve _ _ _ _ Hr).
  - intros Hr. by rewrite endpoint_unresolved.
  - intros Hr. by rewrite endpoint_unresolved.
Qed.


End Specification.

(** * The sample run *)

(** The codec on some tokens.  The last two are accepted because [int]
    takes a sign and ignores surrounding whitespace. *)
Example parse_time_tokens :
  parse_time <$> [None; Some EmptyString; Some "   "; Some "0830"; Some "0830H";
                  Some " 2359 "; Some "ab30"; Some "12"; Some "08:30";
                  Some "+530"; Some "1 30"]
  = [None; None; None; Some 30600; Some 30630;
     Some 86340; None; None; None;
     Some 19800; Some 5400].
Proof. vm_compute. reflexivity. Qed.

(** The sample feed: X1 has an overlay over its permanent schedule, X3 an
    operator that is not on the allow-list, X4 is cancelled, and X5 has an
    indicator that [STP_PRIORITY] does not list. *)
Example sample_output_summary :
  train_id <$> trains Sample.output = ["X1"; "X2"; "X5"]
  ∧ (operators Sample.output).*1 = ["VT"; "LM"]
  ∧ total_trains (meta Sample.output) = 3%nat
  ∧ train_id <$> process_schedule Sample.tiploc_to_crs Sample.stations Sample.feed
    = ["X1"; "X2"; "X3"; "X5"]
  ∧ (group_by_uid Sample.feed).*1 = ["X1"; "X2"; "X3"; "X4"; "X5"].
Proof. repeat split; vm_compute; reflexivity. Qed.

(** The overlay of X1 wins over the permanent schedule that precedes it
    in the feed. *)
Example overlay_wins :
  stp <$> select_best (variants "X1" Sample.feed) = Some "O".
Proof. vm_compute. reflexivity. Qed.

(** C1: the time of a stop is not always the departure time when that one
    parses.  A departure at midnight parses to 0, which Python's [or]
    treats like [None]: the stop below gets its arrival time, 23:58, and
    an origin with nothing but a midnight departure gets no time, so it is
    dropped although its location resolves and its departure parses. *)
Theorem midnight_departure_skipped :
  parse_time (departure Sample.midnight_call) = Some 0
  ∧ stop_time Sample.midnight_call = Some 86280
  ∧ parse_time (departure Sample.midnight_origin) = Some 0
  ∧ is_Some (resolve Sample.tiploc_to_crs Sample.stations
               (stop_tiploc Sample.midnight_origin))
  ∧ stop_time Sample.midnight_origin = None
  ∧ waypoint Sample.tiploc_to_crs Sample.stations Sample.midnight_origin = None.
Proof.
  repeat split; try (vm_compute; reflexivity).
  vm_compute. by eexists.
Qed.

(** C2 as stated fails: with the selected variant kept in its place,
    exchanging two other variants changes the selection when one of them
    has the score of the selected variant. *)
Lemma tie_break_not_permutation_invariant :
  ¬ (∀ (l1 l2 l1' l2' : list Version) (w : Version),
       select_best (l1 ++ w :: l2) = Some w →
       l1' ++ l2' ≡ₚ l1 ++ l2 → length l1' = length l1 →
       select_best (l1' ++ w :: l2') = Some w).
Proof.
  intros Hinv.
  specialize (Hinv [Sample.base] [Sample.overlay_b]
                   [Sample.overlay_b] [Sample.base] Sample.overlay_a).
  assert (select_best ([Sample.overlay_b] ++ Sample.overlay_a :: [Sample.base])
          = Some Sample.overlay_a) as Hsel.
  { apply Hinv; [by vm_compute | apply perm_swap | done]. }
  vm_compute in Hsel. discriminate Hsel.
Qed.

Lemma select_best_spec_witness :
  ∃ best, select_best [Sample.base; Sample.overlay_a; Sample.overlay_b] = Some best
    ∧ stp_priority Sample.base ≤ stp_priority best.
Proof.
  assert ([Sample.base; Sample.overlay_a; Sample.overlay_b] ≠ []) as Hne by done.
  destruct (@select_best_spec Sample.fixed Sample.tiploc_to_crs Sample.stations
              "X1" _ Hne) as (_ & l1 & best & l2 & _ & Hsel & Hmax & _).
  exists best. split; [done|]. apply Hmax. left.
Defined.


Lemma x2_train_emitted : Sample.x2_train ∈ trains Sample.output.
Proof. apply (list_elem_of_lookup_2 _ 1%nat). vm_compute. reflexivity. Defined.

Lemma emitted_path_sorted_witness :
  (2 ≤ length (train_path Sample.x2_train))%nat
  ∧ StronglySorted (λ p q, wp_time p ≤ wp_time q) (train_path Sample.x2_train).
Proof.
  exact (proj1 (@emitted_path_sorted Sample.fixed Sample.tiploc_to_crs
                  Sample.stations Sample.today Sample.feed)
           Sample.x2_train x2_train_emitted).
Defined.

Lemma operator_filter_witness :
  is_Some (KNOWN_OPERATORS !! train_op Sample.x2_train)
  ∧ train_id Sample.x2_train ≠ train_id Sample.x3_train.
Proof.
  destruct (@operator_filter Sample.fixed Sample.tiploc_to_crs Sample.stations
              Sample.today Sample.feed) as (Hknown & Hout & _).
  split.
  - apply Hknown, x2_train_emitted.
  - apply Hout.
    + apply (list_elem_of_lookup_2 _ 2%nat). vm_compute. reflexivity.
    + vm_compute. reflexivity.
    + apply x2_train_emitted.
Defined.

Lemma endpoints_from_raw_stops_witness :
  train_from Sample.x2_train = "London Euston"
  ∧ train_to Sample.x2_train = "Manchester Piccadilly"
  ∧ head (train_path Sample.x2_train) = Some (-223090, 5347740, 28800).
Proof.
  destruct (@endpoints_from_raw_stops Sample.fixed Sample.tiploc_to_crs
              Sample.stations Sample.today Sample.feed Sample.x2_train
              x2_train_emitted)
    as (best & first & final & Hsel & Hf & Hl & Hfrom & Hto & _).
  vm_compute in Hsel. injection Hsel as <-.
  vm_compute in Hf. injection Hf as <-.
  vm_compute in Hl. injection Hl as <-.
  split; [|split; [|done]].
  - apply (Hfrom (Sample.station "London Euston" 5152814 (-13389))).
    vm_compute. reflexivity.
  - apply (Hto (Sample.station "Manchester Piccadilly" 5347736 (-223091))).
    vm_compute. reflexivity.
Defined.



(** The loaders on the sample tables give the tables of the sample run. *)
Example sample_tables_loaded :
  load_corpus SampleTables.corpus = Sample.tiploc_to_crs
  ∧ @load_stations Sample.fixed SampleTables.fixed_float SampleTables.rows
    = Some Sample.stations
  ∧ @load_stations Sample.fixed SampleTables.fixed_float
      (SampleTables.rows ++ [SampleTables.short_row]) = None.
Proof. repeat split. Qed.

(** * The rest of the script: codec, loaders, grouping and output *)

(** ** More on the Time Codec *)

Module CodecFacts.
Import PyStr PyStrFacts.

Lemma rstrip_cons c u :
  rstrip (String c u)
  = match rstrip u with
    | EmptyString => if is_space c then EmptyString else String c EmptyString
    | r0 => String c r0
    end.
Proof. reflexivity. Qed.

Lemma rstrip_idem s : rstrip (rstrip s) = rstrip s.
Proof.
  induction s as [|c r IH]; [done|]. rewrite rstrip_cons.
  destruct (rstrip r) as [|d r'] eqn:E.
  - destruct (is_space c) eqn:Hc; [done|]. simpl. by rewrite Hc.
  - by rewrite rstrip_cons, IH.
Qed.

Lemma lstrip_head s :
  lstrip s = EmptyString ∨ ∃ c r, lstrip s = String c r ∧ is_space c = false.
Proof.
  induction s as [|c r IH]; [by left|]. simpl.
  destruct (is_space c) eqn:Hc; [done|]. right; eauto.
Qed.

Lemma strip_head s c r : strip s = String c r → is_space c = false.
Proof.
  unfold strip. destruct (lstrip_head s) as [->|(d & u & -> & Hd)]; [done|].
  rewrite rstrip_keep by done. by intros [= <- _].
Qed.

Lemma strip_idem s : strip (strip s) = strip s.
Proof.
  destruct (strip s) as [|c r] eqn:E; [done|].
  pose proof (strip_head _ _ _ E) as Hc.
  rewrite strip_keep by done. f_equal.
  unfold strip in E. destruct (lstrip_head s) as [E'|(d & u & E' & Hd)];
    rewrite E' in E; [done|].
  rewrite rstrip_keep in E by done. injection E as _ <-. apply rstrip_idem.
Qed.

Lemma digit_val_range c : is_digit c = true → 0 ≤ digit_val c ≤ 9.
Proof.
  destruct c as [[] [] [] [] [] [] [] []]; intros Hc; try discriminate Hc;
    vm_compute; split; discriminate.
Qed.

(** Without a sign, [int] reads the digits of the stripped string. *)
Lemma int_unsigned c r :
  c ≠ "+"%char → c ≠ "-"%char →
  match String c r with
  | String "+" u => int_digits 0 false u
  | String "-" u => Z.opp <$> int_digits 0 false u
  | t => int_digits 0 false t
  end = int_digits 0 false (String c r).
Proof.
  intros Hp Hm.
  destruct c as [[] [] [] [] [] [] [] []]; try done.
Qed.

End CodecFacts.

(** X1: surrounding whitespace is ignored: a token decodes like its
    stripped form. *)
Theorem parse_time_strip (s : string) :
  parse_time (Some s) = parse_time (Some (PyStr.strip s)).
Proof.
  unfold parse_time. rewrite CodecFacts.strip_idem.
  destruct (PyStr.strip s) as [|c r] eqn:E.
  - by rewrite orb_true_r.
  - destruct s as [|c0 r0]; [done|]. reflexivity.
Qed.

(** X2: a token that starts with the four digits of a time of day (hour
    below 24, minute below 60) decodes to a number of seconds of one day,
    from which hour, minute and half-minute marker are read back. *)
Theorem parse_time_clock (a b c d : ascii) (rest : string) :
  PyStr.is_digit a = true → PyStr.is_digit b = true →
  PyStr.is_digit c = true → PyStr.is_digit d = true →
  two_digits a b < 24 → two_digits c d < 60 →
  ∃ t, parse_time (Some (String a (String b (String c (String d rest))))) = Some t
    ∧ 0 ≤ t < 86400
    ∧ t / 3600 = two_digits a b
    ∧ (t mod 3600) / 60 = two_digits c d
    ∧ t mod 60 = (if PyStr.has_char_at 0 "H" rest then 30 else 0).
Proof.
  intros Ha Hb Hc Hd Hh Hm.
  rewrite parse_time_four_digits by done. eexists. split; [done|].
  pose proof (CodecFacts.digit_val_range a Ha).
  pose proof (CodecFacts.digit_val_range b Hb).
  pose proof (CodecFacts.digit_val_range c Hc).
  pose proof (CodecFacts.digit_val_range d Hd).
  unfold two_digits in *.
  set (h := 10 * PyStr.digit_val a + PyStr.digit_val b) in *.
  set (m := 10 * PyStr.digit_val c + PyStr.digit_val d) in *.
  set (x := if PyStr.has_char_at 0 "H" rest then 30 else 0).
  assert (0 ≤ x < 60) as Hx by (subst x; destruct (PyStr.has_char_at _ _ _); lia).
  assert (0 ≤ h) by lia. assert (0 ≤ m) by lia.
  repeat split; try lia.
  - symmetry. apply (Z.div_unique _ 3600 h (m * 60 + x)); lia.
  - replace ((h * 3600 + m * 60 + x) mod 3600) with (m * 60 + x).
    + symmetry. apply (Z.div_unique _ 60 m x); lia.
    + apply (Z.mod_unique _ 3600 h); lia.
  - symmetry. apply (Z.mod_unique _ 60 (h * 60 + m)); lia.
Qed.

Lemma parse_time_clock_witness :
  ∃ t, parse_time (Some "2359H") = Some t ∧ 0 ≤ t < 86400 ∧ t / 3600 = 23.
Proof.
  destruct (parse_time_clock "2" "3" "5" "9" "H") as (t & Ht & Hr & Hh & _);
    try reflexivity.
  exists t. by rewrite Hh.
Defined.

(** X3: a token whose first character (after stripping) is neither a
    digit nor a sign decodes to [None]. *)
Theorem parse_time_not_a_number (s : string) (c : ascii) (r : string) :
  PyStr.strip s = String c r →
  PyStr.is_digit c = false → c ≠ "+"%char → c ≠ "-"%char →
  parse_time (Some s) = None.
Proof.
  intros E Hd Hp Hm. unfold parse_time. rewrite E.
  destruct (_ || _); [done|].
  pose proof (CodecFacts.strip_head _ _ _ E) as Hs.
  assert (∃ u, PyStr.slice 0 2 (String c r) = String c u) as [u ->].
  { unfold PyStr.slice. simpl. eauto. }
  unfold PyStr.int. rewrite PyStrFacts.strip_keep by done.
  rewrite CodecFacts.int_unsigned by done.
  simpl. rewrite Hd. by destruct (Ascii.eqb c "_").
Qed.

Lemma parse_time_not_a_number_witness : parse_time (Some " n/a ") = None.
Proof.
  apply (parse_time_not_a_number " n/a " "n" "/a"); [reflexivity|reflexivity| |];
    discriminate.
Defined.

(** ** More on the time of a stop *)

(** X4: the time of a stop is one of its three parsed times, and it is 0
    only when the pass time parses to 0: a departure or an arrival at
    midnight is never the time of a stop. *)
Theorem stop_time_sources (loc : Location) (t : Z) :
  stop_time loc = Some t →
  (parse_time (departure loc) = Some t ∨ parse_time (arrival loc) = Some t
   ∨ parse_time (pass loc) = Some t)
  ∧ (t = 0 → parse_time (pass loc) = Some 0).
Proof.
  unfold stop_time, py_or.
  destruct (parse_time (departure loc)) as [[| |]|];
    destruct (parse_time (arrival loc)) as [[| |]|];
    intros E; (split; [naive_solver | intros ?; by simplify_eq]).
Qed.

Lemma stop_time_sources_witness :
  parse_time (departure Sample.midnight_call) = Some 86280
  ∨ parse_time (arrival Sample.midnight_call) = Some 86280
  ∨ parse_time (pass Sample.midnight_call) = Some 86280.
Proof.
  assert (stop_time Sample.midnight_call = Some 86280) as E
    by reflexivity.
  exact (proj1 (stop_time_sources Sample.midnight_call 86280 E)).
Defined.

(** ** The loaders *)

Section CorpusFacts.
Implicit Types (entry : CorpusEntry) (data : list CorpusEntry).

Lemma truthy_nonempty s : PyStr.truthy (Some s) = true ↔ s ≠ EmptyString.
Proof. by destruct s. Qed.

Lemma corpus_pair_inv entry k v :
  corpus_pair entry = Some (k, v) →
  k = PyStr.strip (default EmptyString (TIPLOC entry))
  ∧ v = PyStr.strip (default EmptyString (ALPHA3 entry))
  ∧ k ≠ EmptyString ∧ v ≠ EmptyString.
Proof.
  unfold corpus_pair.
  destruct (PyStr.truthy (Some (PyStr.strip (default EmptyString (TIPLOC entry)))))
    eqn:Hk; [|done].
  destruct (PyStr.truthy (Some (PyStr.strip (default EmptyString (ALPHA3 entry)))))
    eqn:Hv; [|done].
  simpl. intros [= <- <-]. by rewrite <- !truthy_nonempty.
Qed.

Lemma corpus_from_app m l1 l2 :
  corpus_from m (l1 ++ l2) = corpus_from (corpus_from m l1) l2.
Proof. apply fold_left_app. Qed.

Lemma corpus_from_other m data k :
  (∀ entry v, entry ∈ data → corpus_pair entry ≠ Some (k, v)) →
  corpus_from m data !! k = m !! k.
Proof.
  revert m. induction data as [|e data IH]; intros m Hno; [done|]. simpl.
  rewrite IH by (intros e' v He'; apply Hno; by right).
  destruct (corpus_pair e) as [[k' v']|] eqn:E; [|done].
  apply lookup_insert_ne. intros ->. by apply (Hno e v'); [left|].
Qed.

Lemma corpus_from_source m data k v :
  corpus_from m data !! k = Some v →
  m !! k = Some v ∨ ∃ entry, entry ∈ data ∧ corpus_pair entry = Some (k, v).
Proof.
  revert m. induction data as [|e data IH]; intros m; simpl; [auto|].
  intros [Hm|(e' & He' & Hp)]%IH.
  - destruct (corpus_pair e) as [[k' v']|] eqn:E; [|auto].
    destruct (decide (k' = k)) as [->|Hne].
    + rewrite lookup_insert_eq in Hm. injection Hm as ->.
      right. exists e. split; [left | done].
    + rewrite lookup_insert_ne in Hm by done. auto.
  - right. exists e'. split; [by right | done].
Qed.

Lemma load_corpus_source data k v :
  load_corpus data !! k = Some v →
  ∃ entry, entry ∈ data ∧ corpus_pair entry = Some (k, v).
Proof.
  intros [Hm|?]%corpus_from_source; [|done].
  by rewrite lookup_empty in Hm.
Qed.
End CorpusFacts.

(** X5: every pair of the loaded TIPLOC table comes from an entry of the
    data; its key and its value are non-empty and free of surrounding
    whitespace.  In particular the empty code has no entry. *)
Theorem load_corpus_well_formed (data : list CorpusEntry) (k v : string) :
  load_corpus data !! k = Some v →
  k ≠ EmptyString ∧ v ≠ EmptyString
  ∧ PyStr.strip k = k ∧ PyStr.strip v = v
  ∧ ∃ entry, entry ∈ data
      ∧ k = PyStr.strip (default EmptyString (TIPLOC entry))
      ∧ v = PyStr.strip (default EmptyString (ALPHA3 entry)).
Proof.
  intros (e & He & Hp)%load_corpus_source.
  apply corpus_pair_inv in Hp as (Hk & Hv & ? & ?).
  do 2 (split; [done|]).
  split; [rewrite Hk; apply CodecFacts.strip_idem|].
  split; [rewrite Hv; apply CodecFacts.strip_idem|].
  by exists e.
Qed.

Lemma load_corpus_well_formed_witness :
  PyStr.strip "EUS" = "EUS"
  ∧ ∃ entry, entry ∈ SampleTables.corpus
      ∧ "EUSTON" = PyStr.strip (default EmptyString (TIPLOC entry))
      ∧ "EUS" = PyStr.strip (default EmptyString (ALPHA3 entry)).
Proof.
  assert (load_corpus SampleTables.corpus !! "EUSTON" = Some "EUS") as E
    by reflexivity.
  destruct (load_corpus_well_formed _ _ _ E) as (_ & _ & _ & Hv & He).
  by split.
Defined.

(** X6: when several entries have the same TIPLOC (after stripping), the
    last one that is stored decides; a TIPLOC that no stored entry has is
    not in the table. *)
Theorem load_corpus_last_wins (l1 l2 : list CorpusEntry) (entry : CorpusEntry)
    (k v : string) :
  corpus_pair entry = Some (k, v) →
  (∀ later v', later ∈ l2 → corpus_pair later ≠ Some (k, v')) →
  load_corpus (l1 ++ entry :: l2) !! k = Some v
  ∧ (∀ k', (∀ e v', e ∈ l1 ++ entry :: l2 → corpus_pair e ≠ Some (k', v')) →
       load_corpus (l1 ++ entry :: l2) !! k' = None).
Proof.
  intros Hp Hlater. split.
  - unfold load_corpus.
    rewrite corpus_from_app. simpl. rewrite corpus_from_other by done.
    rewrite Hp. apply lookup_insert_eq.
  - intros k' Hno. unfold load_corpus.
    by rewrite corpus_from_other.
Qed.

Lemma load_corpus_last_wins_witness :
  load_corpus SampleTables.corpus !! "EUSTON" = Some "EUS".
Proof.
  refine (proj1 (load_corpus_last_wins
    (take 4 SampleTables.corpus) (drop 5 SampleTables.corpus)
    {| TIPLOC := Some "EUSTON"; ALPHA3 := Some " EUS" |} "EUSTON" "EUS" _ _)).
  - reflexivity.
  - intros later v' [->|Hin%elem_of_nil]%elem_of_cons; [|done].
    discriminate.
Defined.

Section StationFacts.
Context `{Coord} (py_float : string → option coord).
Implicit Types (row : gmap string (option string)) (st : gmap string Station).

Local Abbreviation station_row := (station_row py_float).
Local Abbreviation load_stations := (load_stations py_float).

Local Abbreviation stations_from := (stations_from py_float).

Lemma stations_from_None rows : stations_from None rows = None.
Proof. induction rows as [|row rows IH]; [done|]. exact IH. Qed.

Lemma stations_from_app acc l1 l2 :
  stations_from acc (l1 ++ l2) = stations_from (stations_from acc l1) l2.
Proof. apply fold_left_app. Qed.

(** What one row does to the table. *)
Lemma station_row_inv st row st' :
  station_row st row = Some st' →
  st' = st
  ∨ ∃ c n la ln x y,
      crs_column row = Some c ∧ name_column row (PyStr.strip c) = Some n
      ∧ lat_column row = Some la ∧ lng_column row = Some ln
      ∧ py_float la = Some x ∧ py_float ln = Some y
      ∧ PyStr.strip c ≠ EmptyString
      ∧ st' = <[PyStr.strip c :=
                  {| name := PyStr.strip n; lat := x; lng := y |}]> st.
Proof.
  unfold station_row.
  destruct (crs_column row) as [c|]; [|done]. cbv zeta.
  destruct (PyStr.truthy (Some (PyStr.strip c))) eqn:Hc; simpl;
    [|intros [= <-]; by left].
  destruct (lat_column row) as [[|a1 la]|]; simpl;
    try (intros [= <-]; by left).
  destruct (lng_column row) as [[|a2 ln]|]; simpl;
    try (intros [= <-]; by left).
  destruct (name_column row (PyStr.strip c)) as [n|] eqn:Hn; [|done].
  destruct (py_float (String a1 la)) as [x|] eqn:Hx; simpl;
    [|intros [= <-]; by left].
  destruct (py_float (String a2 ln)) as [y|] eqn:Hy; simpl;
    [|intros [= <-]; by left].
  intros [= <-]. right. exists c, n, (String a1 la), (String a2 ln), x, y.
  apply truthy_nonempty in Hc. by repeat split.
Qed.

Lemma stations_from_inv (P : string → Station → Prop) st rows st' :
  (∀ c n x y, PyStr.strip c ≠ EmptyString →
     P (PyStr.strip c) {| name := PyStr.strip n; lat := x; lng := y |}) →
  map_Forall P st →
  stations_from (Some st) rows = Some st' → map_Forall P st'.
Proof.
  intros HP. revert st. induction rows as [|row rows IH]; intros st Hst; simpl.
  - by intros [= <-].
  - destruct (station_row st row) as [st1|] eqn:E;
      [|by rewrite stations_from_None].
    apply IH.
    apply station_row_inv
      in E as [->|(c & n & la & ln & x & y & _ & _ & _ & _ & _ & _ & Hc & ->)];
      [done|].
    apply map_Forall_insert_2; [by apply HP | done].
Qed.
End StationFacts.

Section LoadStations.
Context `{Coord} (py_float : string → option coord).
Implicit Types (row : gmap string (option string)) (st : gmap string Station).

Local Abbreviation station_row := (station_row py_float).
Local Abbreviation load_stations := (load_stations py_float).
Local Abbreviation stations_from := (stations_from py_float).

Lemma load_stations_keys (rows : list (gmap string (option string))) st :
  load_stations rows = Some st →
  map_Forall (λ k s, k ≠ EmptyString ∧ PyStr.strip k = k
                     ∧ PyStr.strip (name s) = name s) st.
Proof.
  intros Hload.
  eapply (stations_from_inv py_float); [| |exact Hload].
  - intros c n x y Hc. simpl. by rewrite !CodecFacts.strip_idem.
  - apply map_Forall_empty.
Qed.

Lemma load_stations_no_empty_key (rows : list (gmap string (option string))) st :
  load_stations rows = Some st → st !! EmptyString = None.
Proof.
  intros Hall%load_stations_keys.
  destruct (st !! EmptyString) as [s|] eqn:E; [|done].
  by destruct (Hall _ _ E) as [? _].
Qed.

(** X7: in a loaded station table every identifier is non-empty and free
    of surrounding whitespace, and so is every name free of it; the empty
    identifier has no station. *)
Theorem load_stations_well_formed (rows : list (gmap string (option string)))
    st :
  load_stations rows = Some st →
  st !! EmptyString = None
  ∧ ∀ k s, st !! k = Some s →
      k ≠ EmptyString ∧ PyStr.strip k = k ∧ PyStr.strip (name s) = name s.
Proof.
  intros Hload. split; [by eapply load_stations_no_empty_key|].
  intros k s E. by apply (load_stations_keys _ _ Hload).
Qed.

Lemma station_row_skip st row c :
  crs_column row = Some c →
  is_Some (name_column row (PyStr.strip c)) →
  lat_column row ≫= py_float = None ∨ lng_column row ≫= py_float = None →
  station_row st row = Some st.
Proof.
  intros Hc [n Hn] Hbad. unfold station_row. rewrite Hc. cbv zeta.
  rewrite Hn. destruct (_ && _ && _); [|done].
  destruct Hbad as [-> | ->]; [done|].
  by destruct (lat_column row ≫= py_float).
Qed.

(** X8: a row whose latitude or longitude is not a number is skipped: the
    load goes on and the table is the one loaded without that row. *)
Theorem load_stations_skips_bad_numbers
    (l1 l2 : list (gmap string (option string))) row c :
  crs_column row = Some c →
  is_Some (name_column row (PyStr.strip c)) →
  lat_column row ≫= py_float = None ∨ lng_column row ≫= py_float = None →
  load_stations (l1 ++ row :: l2) = load_stations (l1 ++ l2).
Proof.
  intros Hc Hn Hbad. unfold load_stations.
  rewrite !(stations_from_app py_float).
  destruct (stations_from (Some ∅) l1) as [st|]; [|done].
  simpl. by rewrite (station_row_skip st row c).
Qed.

Lemma row_get_is_Some row k d :
  (∀ k', row !! k' ≠ Some None) → is_Some d → is_Some (row_get row k d).
Proof.
  intros Hfull Hd. unfold row_get.
  destruct (row !! k) as [[v|]|] eqn:E; simpl; [by eexists | | done].
  by destruct (Hfull k).
Qed.

(** X9: when no cell of any row is missing, [load_stations] returns a
    table: the [AttributeError] needs a row shorter than the header. *)
Theorem load_stations_total (rows : list (gmap string (option string))) :
  (∀ row k, row ∈ rows → row !! k ≠ Some None) →
  is_Some (load_stations rows).
Proof.
  unfold load_stations. generalize (∅ : gmap string Station).
  induction rows as [|row rows IH]; intros st Hfull; [by eexists|].
  assert (∀ k, row !! k ≠ Some None) as Hrow by (intros k; apply Hfull; left).
  assert (is_Some (station_row st row)) as [st' Hst'].
  { unfold station_row.
    destruct (crs_column row) as [c|] eqn:Hc.
    - cbv zeta.
      destruct (name_column row (PyStr.strip c)) as [n|] eqn:Hn.
      + destruct (_ && _ && _); [|by eexists].
        destruct (lat_column row ≫= py_float); [|by eexists].
        destruct (lng_column row ≫= py_float); by eexists.
      + assert (is_Some (name_column row (PyStr.strip c))) as [? ?];
          [|congruence].
        unfold name_column. by repeat apply row_get_is_Some.
    - assert (is_Some (crs_column row)) as [? ?]; [|congruence].
      unfold crs_column. by repeat apply row_get_is_Some. }
  simpl. rewrite Hst'. apply IH. intros r k Hr. apply Hfull. by right.
Qed.

(** On loaded tables the lookup made for the origin and the destination
    is the resolution of the path loop. *)
Lemma endpoint_loaded (tiploc_to_crs : gmap string string) st loc :
  st !! EmptyString = None →
  (∀ k, tiploc_to_crs !! k ≠ Some EmptyString) →
  endpoint tiploc_to_crs st loc = resolve tiploc_to_crs st (stop_tiploc loc).
Proof.
  intros Hst Htt. unfold endpoint, resolve.
  destruct (tiploc_to_crs !! stop_tiploc loc) as [crs|] eqn:E; [|done]. simpl.
  destruct (String.eqb_spec crs EmptyString) as [->|]; [|done].
  by destruct (Htt (stop_tiploc loc)).
Qed.

(** X10: with the tables that the loaders return, the origin and
    destination names of every train of the output are the names of the
    stations that the first and the last raw stop of the selected variant
    resolve to, and ['?'] exactly when that stop does not resolve. *)
Theorem loaded_endpoints (today : string) (data : list CorpusEntry)
    (rows : list (gmap string (option string))) (feed : list FeedLine)
    (out : Output) (t : Train) :
  main_from_sources py_float today data rows feed = Some out →
  t ∈ trains out →
  ∃ st best first final,
    load_stations rows = Some st
    ∧ select_best (variants (train_id t) feed) = Some best
    ∧ head (locations best) = Some first
    ∧ last (locations best) = Some final
    ∧ train_from t
      = display_name (resolve (load_corpus data) st (stop_tiploc first))
    ∧ train_to t
      = display_name (resolve (load_corpus data) st (stop_tiploc final)).
Proof.
  unfold main_from_sources.
  destruct (load_stations rows) as [st|] eqn:Hst; [|done]. simpl.
  intros [= <-] (t0 & Ht0 & _ & ->)%main_trains_elem. simpl.
  apply process_schedule_id, process_uid_inv in Ht0 as (best & Hsel & _ & Hb).
  apply build_train_inv
    in Hb as (_ & _ & _ & _ & first & final & Hf & Hl & -> & ->).
  exists st, best, first, final. do 4 (split; [done|]).
  pose proof (load_stations_no_empty_key _ _ Hst) as Hempty.
  assert (∀ k, load_corpus data !! k ≠ Some EmptyString) as Hcorpus.
  { intros k (e & _ & (_ & _ & _ & ?)%corpus_pair_inv)%load_corpus_source.
    done. }
  by rewrite !endpoint_loaded.
Qed.
End LoadStations.

Lemma load_stations_well_formed_witness :
  Sample.stations !! EmptyString = None.
Proof.
  assert (@load_stations Sample.fixed SampleTables.fixed_float SampleTables.rows
          = Some Sample.stations) as E by reflexivity.
  exact (proj1 (@load_stations_well_formed Sample.fixed SampleTables.fixed_float
                  _ _ E)).
Defined.

Lemma load_stations_skips_bad_numbers_witness :
  @load_stations Sample.fixed SampleTables.fixed_float SampleTables.rows
  = @load_stations Sample.fixed SampleTables.fixed_float
      (take 2 SampleTables.rows ++ drop 3 SampleTables.rows).
Proof.
  apply (@load_stations_skips_bad_numbers Sample.fixed SampleTables.fixed_float
           (take 2 SampleTables.rows) (drop 3 SampleTables.rows)
           (SampleTables.row "XXX" "Nowhere" "north" "-1") "XXX").
  - reflexivity.
  - by eexists.
  - left. reflexivity.
Defined.

Lemma load_stations_total_witness :
  is_Some (@load_stations Sample.fixed SampleTables.fixed_float
             [SampleTables.row "EUS" "London Euston" "5152814" "-13389"]).
Proof.
  apply (@load_stations_total Sample.fixed SampleTables.fixed_float).
  intros row k ->%list_elem_of_singleton.
  unfold SampleTables.row. cbn [list_to_map foldr uncurry fst snd].
  rewrite !lookup_insert, lookup_empty.
  repeat case_decide; done.
Defined.

Lemma loaded_endpoints_witness :
  train_from Sample.x2_train = "London Euston".
Proof.
  destruct (@loaded_endpoints Sample.fixed SampleTables.fixed_float Sample.today
              SampleTables.corpus SampleTables.rows Sample.feed Sample.output
              Sample.x2_train)
    as (st & best & first & final & Hst & Hsel & Hf & _ & Hfrom & _).
  - reflexivity.
  - apply x2_train_emitted.
  - assert (@load_stations Sample.fixed SampleTables.fixed_float SampleTables.rows
            = Some Sample.stations) as Est by reflexivity.
    rewrite Est in Hst. injection Hst as <-.
    assert (select_best (variants "X2" Sample.feed)
            = Some {| uid := "X2"; stp := "P"; toc := "VT";
                      locations := Sample.against_the_clock |}) as Esel
      by reflexivity.
    change (train_id Sample.x2_train) with "X2" in Hsel.
    rewrite Esel in Hsel. injection Hsel as <-.
    injection Hf as <-.
    rewrite Hfrom. reflexivity.
Defined.

Section ShortRows.
Context `{Coord} (py_float : string → option coord).
Implicit Types (row : gmap string (option string)) (st : gmap string Station).

Local Abbreviation station_row := (station_row py_float).
Local Abbreviation load_stations := (load_stations py_float).
Local Abbreviation stations_from := (stations_from py_float).

(** X11: a row whose identifier cell is missing, or whose name cell is
    missing while identifier, latitude and longitude are filled in, stops
    the load with the [AttributeError] of [None.strip()], whatever the
    other rows are. *)
Theorem load_stations_short_row
    (l1 l2 : list (gmap string (option string))) row :
  crs_column row = None
  ∨ (∃ c la ln,
       crs_column row = Some c ∧ PyStr.strip c ≠ EmptyString
       ∧ lat_column row = Some la ∧ la ≠ EmptyString
       ∧ lng_column row = Some ln ∧ ln ≠ EmptyString
       ∧ name_column row (PyStr.strip c) = None) →
  load_stations (l1 ++ row :: l2) = None.
Proof.
  intros Hrow. unfold load_stations.
  rewrite (stations_from_app py_float).
  destruct (stations_from (Some ∅) l1) as [st|];
    [|apply (stations_from_None py_float)].
  assert (station_row st row = None) as E.
  { unfold station_row.
    destruct Hrow as [-> | (c & la & ln & -> & Hc & -> & Hla & -> & Hln & Hn)];
      [done|].
    cbv zeta. rewrite Hn.
    apply truthy_nonempty in Hc, Hla, Hln. by rewrite Hc, Hla, Hln. }
  simpl. rewrite E. apply (stations_from_None py_float).
Qed.
End ShortRows.

Lemma load_stations_short_row_witness :
  @load_stations Sample.fixed SampleTables.fixed_float
    (SampleTables.rows ++ SampleTables.short_row :: []) = None.
Proof.
  apply (@load_stations_short_row Sample.fixed SampleTables.fixed_float).
  right. exists "YRK", "5395800", "-109300". by repeat split.
Defined.

(** ** Insertion order *)

Section OrderFacts.
Implicit Types (ks l : list string) (k : string).

Lemma key_step_fold ks l :
  fold_left key_step l ks = ks ++ filter (λ k, k ∉ ks) (first_seen l).
Proof.
  revert ks. induction l as [|x l IH]; intros ks; simpl.
  - by rewrite app_nil_r.
  - rewrite IH. unfold key_step. rewrite filter_cons.
    destruct (decide (x ∈ ks)) as [Hin|Hnin].
    + rewrite decide_False by auto. f_equal.
      rewrite list_filter_filter. apply list_filter_iff.
      intros y. split; [|tauto]. intros Hy. split; [done|]. by intros ->.
    + rewrite decide_True by done. rewrite <- app_assoc. simpl. do 2 f_equal.
      rewrite list_filter_filter. apply list_filter_iff.
      intros y. rewrite not_elem_of_app, list_elem_of_singleton. tauto.
Qed.

Lemma first_seen_fold l : fold_left key_step l [] = first_seen l.
Proof.
  rewrite key_step_fold. simpl.
  induction (first_seen l) as [|y r IH]; [done|].
  rewrite filter_cons, decide_True by apply not_elem_of_nil. by rewrite IH.
Qed.

Lemma first_seen_elem l k : k ∈ first_seen l ↔ k ∈ l.
Proof.
  induction l as [|x l IH]; simpl; [done|].
  rewrite !elem_of_cons, list_elem_of_filter, IH.
  destruct (decide (k = x)); tauto.
Qed.

Lemma first_seen_nodup l : NoDup (first_seen l).
Proof.
  induction l as [|x l IH]; simpl; constructor.
  - rewrite list_elem_of_filter. tauto.
  - by apply NoDup_filter.
Qed.

Lemma ingest_keys feed d :
  (fold_left ingest_line feed d).*1 = fold_left key_step (feed_uids feed) d.*1.
Proof.
  revert d. induction feed as [|line feed IH]; intros d; [done|].
  simpl. rewrite IH. unfold ingest_line, feed_uids. simpl.
  destruct (line_version line) as [v|]; [|done].
  simpl. by rewrite dict_append_keys.
Qed.

Lemma add_operator_key_step ops op :
  (add_operator ops op).*1 = key_step ops.*1 op.
Proof.
  unfold add_operator, key_step.
  destruct (has_key op ops) eqn:E.
  - rewrite decide_True; [done|]. by apply has_key_elem.
  - rewrite decide_False; [by rewrite fmap_app|].
    intros Hin. apply (proj2 (has_key_elem _ _)) in Hin. congruence.
Qed.

Lemma collect_keys `{Coord} (ts : list Train) ops :
  (fold_left (λ acc t, add_operator acc (train_op t)) ts ops).*1
  = fold_left key_step (train_op <$> ts) ops.*1.
Proof.
  revert ops. induction ts as [|t ts IH]; intros ops; [done|].
  simpl. by rewrite IH, add_operator_key_step.
Qed.
End OrderFacts.

Lemma group_keys_first_seen (feed : list FeedLine) :
  (group_by_uid feed).*1 = first_seen (feed_uids feed).
Proof. unfold group_by_uid. rewrite ingest_keys. apply first_seen_fold. Qed.

(** X12: the groups are keyed by the uids of the kept lines in the order
    of their first line, without repetition; the group of a uid holds
    that uid's kept lines in feed order, each with that uid and with at
    least one location. *)
Theorem group_by_uid_spec (feed : list FeedLine) :
  (group_by_uid feed).*1 = first_seen (feed_uids feed)
  ∧ NoDup (group_by_uid feed).*1
  ∧ (∀ k vs, (k, vs) ∈ group_by_uid feed ↔ vs ≠ [] ∧ vs = variants k feed)
  ∧ (∀ k v, v ∈ variants k feed →
       uid v = k ∧ k ≠ EmptyString ∧ locations v ≠ []
       ∧ ∃ line, line ∈ feed ∧ line_version line = Some v).
Proof.
  split; [|split; [|split]].
  - apply group_keys_first_seen.
  - apply ingest_keys_nodup. constructor.
  - intros k vs. apply group_by_uid_elem.
  - intros k v Hv. apply variants_inv in Hv as [Huid (line & Hin & Hline)].
    pose proof Hline as (Hu & Hl & _)%line_version_inv.
    split; [done|]. split; [by rewrite <- Huid|]. split; [done|]. eauto.
Qed.

Lemma group_by_uid_spec_witness :
  uid Sample.cancelled = "X4" ∧ locations Sample.cancelled ≠ [].
Proof.
  destruct (group_by_uid_spec Sample.feed) as (_ & _ & _ & Hv).
  destruct (Hv "X4" Sample.cancelled) as (Hu & _ & Hl & _).
  - apply (list_elem_of_lookup_2 _ 1%nat). reflexivity.
  - by split.
Defined.

Section PipelineMore.
Context `{Coord}.
Context (tiploc_to_crs : gmap string string) (stations : gmap string Station).

Local Abbreviation waypoint := (waypoint tiploc_to_crs stations).
Local Abbreviation resolve := (resolve tiploc_to_crs stations).
Local Abbreviation build_train := (build_train tiploc_to_crs stations).
Local Abbreviation process_uid := (process_uid tiploc_to_crs stations).
Local Abbreviation process_schedule := (process_schedule tiploc_to_crs stations).
Local Abbreviation run := (λ today feed, main today feed tiploc_to_crs stations).

Lemma process_groups_ids (groups : list (string * list Version)) :
  train_id <$> omap process_uid groups `sublist_of` groups.*1.
Proof.
  induction groups as [|[k vs] groups IH]; csimpl; [constructor|].
  destruct (process_uid (k, vs)) as [t|] eqn:E; csimpl.
  - apply process_uid_inv in E as (best & _ & _ & Hb).
    apply build_train_inv in Hb as [-> _]. by constructor.
  - by constructor.
Qed.

Lemma main_ids today feed :
  train_id <$> trains (run today feed) `sublist_of` train_id <$> process_schedule feed.
Proof.
  unfold main. cbn [trains].
  generalize (λ t : Train, is_known (train_op t)). intros keep.
  generalize (process_schedule feed). intros l.
  induction l as [|t l IH]; [constructor|].
  cbn [List.filter]. destruct (keep t); csimpl; by constructor.
Qed.

(** X13: the uids of the trains of the output are distinct, and they
    come in the order in which the uids first appear in the feed. *)
Theorem output_ids_ordered (today : string) (feed : list FeedLine) :
  NoDup (train_id <$> trains (run today feed))
  ∧ train_id <$> trains (run today feed) `sublist_of` first_seen (feed_uids feed).
Proof.
  pose proof (main_ids today feed) as H1.
  pose proof (process_groups_ids (group_by_uid feed)) as H2.
  rewrite group_keys_first_seen in H2.
  assert (train_id <$> trains (run today feed) `sublist_of` first_seen (feed_uids feed)) as Hsub by (by etrans).
  split; [|exact Hsub].
  eapply sublist_NoDup; [apply first_seen_nodup | exact Hsub].
Qed.



(** X15: the train of a uid depends on the kept lines of that uid only:
    two feeds with the same variants for a uid give the same train for
    it, or none in both cases. *)
Theorem uid_independent (today : string) (feed1 feed2 : list FeedLine)
    (uid : string) (t : Train) :
  variants uid feed1 = variants uid feed2 → train_id t = uid →
  (t ∈ trains (run today feed1) ↔ t ∈ trains (run today feed2)).
Proof.
  intros Hv Hid.
  assert (∀ fa fb, variants uid fa = variants uid fb →
            t ∈ trains (run today fa) → t ∈ trains (run today fb)) as Himp.
  { intros fa fb E (t0 & Ht0 & Hk & ->)%main_trains_elem.
    apply main_trains_elem. exists t0. split; [|done].
    apply process_schedule_id in Ht0. simpl in Hid. rewrite Hid, E in Ht0.
    apply process_schedule_elem. eauto. }
  split; by apply Himp.
Qed.

Lemma stp_priority_max v : stp_priority v ≤ 4 ∧ (stp_priority v = 4 → stp v = "C").
Proof. rewrite stp_priority_of. repeat case_decide; split; (done || lia). Qed.

(** X16: a cancellation among the kept lines of a uid always wins: the
    uid has no train in the output, whatever the other variants are and
    wherever the cancellation stands in the feed. *)
Theorem any_cancellation_suppresses (today : string) (feed : list FeedLine)
    (uid : string) (v : Version) (t : Train) :
  v ∈ variants uid feed → stp v = "C" →
  t ∈ trains (run today feed) → train_id t ≠ uid.
Proof.
  intros Hv Hc (t0 & Ht0 & _ & ->)%main_trains_elem Hid. simpl in Hid.
  apply process_schedule_id in Ht0. rewrite Hid in Ht0.
  apply process_uid_inv in Ht0 as (best & Hsel & Hbest & _).
  apply Hbest, stp_priority_max.
  pose proof (select_best_greatest _ _ _ Hsel Hv) as Hle.
  rewrite (stp_priority_of v), decide_True in Hle by done.
  pose proof (stp_priority_max best) as [? _]. lia.
Qed.

(** X17: a uid has a train in the output exactly when the selected
    variant of its group is not a cancellation, at least two of its stops
    give a waypoint, and its operator is on the allow-list. *)
Theorem uid_in_output (today : string) (feed : list FeedLine) (uid : string) :
  (∃ t, t ∈ trains (run today feed) ∧ train_id t = uid)
  ↔ ∃ best, select_best (variants uid feed) = Some best
      ∧ stp best ≠ "C"
      ∧ (2 ≤ length (omap waypoint (locations best)))%nat
      ∧ is_Some (KNOWN_OPERATORS !! toc best).
Proof.
  split.
  - intros (t & (t0 & Ht0 & Hk & ->)%main_trains_elem & Hid). simpl in Hid.
    apply process_schedule_id in Ht0. rewrite Hid in Ht0.
    apply process_uid_inv in Ht0 as (best & Hsel & Hbest & Hb).
    apply build_train_inv in Hb as (_ & Hop & Hlen & _).
    exists best. do 3 (split; [done|]).
    rewrite <- Hop. by apply is_known_lookup.
  - intros (best & Hsel & Hbest & Hlen & Hk).
    destruct (build_train_is_Some tiploc_to_crs stations uid best Hlen)
      as [t0 Ht0].
    pose proof (build_train_inv _ _ _ _ _ Ht0) as (Hid & Hop & _).
    exists (reduce_precision t0). split; [|done].
    apply main_trains_elem. exists t0. split; [|split; [|done]].
    + apply process_schedule_elem. exists uid.
      rewrite (process_uid_selected _ _ _ _ best Hsel).
      by rewrite decide_False.
    + apply is_known_lookup. by rewrite Hop.
Qed.
End PipelineMore.


Lemma uid_independent_witness :
  Sample.x2_train ∈ trains Sample.output
  ↔ Sample.x2_train
    ∈ trains (@main Sample.fixed Sample.today
                [Sample.schedule "X2" "P" "VT" Sample.against_the_clock]
                Sample.tiploc_to_crs Sample.stations).
Proof.
  apply (@uid_independent Sample.fixed Sample.tiploc_to_crs Sample.stations
           Sample.today Sample.feed
           [Sample.schedule "X2" "P" "VT" Sample.against_the_clock]
           "X2" Sample.x2_train); reflexivity.
Defined.

Lemma any_cancellation_suppresses_witness :
  train_id Sample.x2_train ≠ "X4".
Proof.
  apply (@any_cancellation_suppresses Sample.fixed Sample.tiploc_to_crs
           Sample.stations Sample.today Sample.feed "X4" Sample.cancelled
           Sample.x2_train).
  - apply (list_elem_of_lookup_2 _ 1%nat). reflexivity.
  - reflexivity.
  - apply x2_train_emitted.
Defined.

(** ** The path of a train and the size of the output *)

Section OutputFacts.
Context `{Coord}.
Context (tiploc_to_crs : gmap string string) (stations : gmap string Station).

Local Abbreviation waypoint := (waypoint tiploc_to_crs stations).
Local Abbreviation resolve := (resolve tiploc_to_crs stations).
Local Abbreviation process_uid := (process_uid tiploc_to_crs stations).
Local Abbreviation process_schedule := (process_schedule tiploc_to_crs stations).
Local Abbreviation run := (λ today feed, main today feed tiploc_to_crs stations).

Lemma waypoint_inv loc p :
  waypoint loc = Some p →
  ∃ stn, resolve (stop_tiploc loc) = Some stn
    ∧ p = (round 5 (lng stn), round 5 (lat stn), wp_time p).
Proof.
  unfold waypoint.
  destruct (resolve (stop_tiploc loc)) as [stn|]; [|done].
  destruct (stop_time loc); [|done]. intros [= <-]. by exists stn.
Qed.

Lemma main_trains today feed :
  trains (run today feed)
  = reduce_precision <$> List.filter (λ t, is_known (train_op t)) (process_schedule feed).
Proof. reflexivity. Qed.

Lemma list_filter_length {A} (f : A → bool) (l : list A) :
  (length (List.filter f l) ≤ length l)%nat.
Proof.
  induction l as [|x l IH]; [done|]. cbn [List.filter].
  destruct (f x); simpl; lia.
Qed.

Lemma ingest_length feed d :
  (length (fold_left ingest_line feed d) ≤ length d + length (omap line_version feed))%nat.
Proof.
  revert d. induction feed as [|line feed IH]; intros d; csimpl; [lia|].
  etrans; [apply IH|]. unfold ingest_line.
  destruct (line_version line) as [v|]; csimpl; [|lia].
  assert (length (dict_append (uid v) v d) ≤ S (length d))%nat; [|lia].
  generalize (uid v). intros k.
  induction d as [|[k' vs] d IHd]; simpl; [lia|].
  destruct (k' =? k)%string; simpl; lia.
Qed.

(** X18: the path of a train of the output holds exactly the waypoints
    of the stops of the selected variant that resolve and have a time,
    each with the coordinates of its station rounded to five and then to
    four decimals; waypoints with the same time keep the order of the
    stops. *)
Theorem output_path_stops (today : string) (feed : list FeedLine) (t : Train) :
  t ∈ trains (run today feed) →
  ∃ best,
    select_best (variants (train_id t) feed) = Some best
    ∧ train_path t ≡ₚ reduce_waypoint <$> omap waypoint (locations best)
    ∧ (∀ time,
         filter (λ p, wp_time p = time) (train_path t)
         = reduce_waypoint
             <$> filter (λ p, wp_time p = time) (omap waypoint (locations best)))
    ∧ (length (train_path t) ≤ length (locations best))%nat
    ∧ ∀ p, p ∈ train_path t →
        ∃ loc stn, loc ∈ locations best
          ∧ resolve (stop_tiploc loc) = Some stn
          ∧ stop_time loc = Some (wp_time p)
          ∧ p = (round 4 (round 5 (lng stn)), round 4 (round 5 (lat stn)),
                 wp_time p).
Proof.
  intros (t0 & Ht0 & _ & ->)%main_trains_elem.
  apply process_schedule_id, process_uid_inv in Ht0 as (best & Hsel & _ & Hb).
  apply build_train_inv in Hb as (_ & _ & _ & Hpath & _).
  exists best. cbn [reduce_precision train_id train_path].
  rewrite Hpath. split; [done|].
  assert (∀ time (l : list Waypoint),
            filter (λ p : Waypoint, wp_time p = time) (reduce_waypoint <$> l)
            = reduce_waypoint <$> filter (λ p : Waypoint, wp_time p = time) l)
    as Hcomm.
  { intros time l. induction l as [|q l IH]; [done|]. csimpl.
    rewrite !filter_cons. change (wp_time (reduce_waypoint q)) with (wp_time q).
    case_decide; csimpl; by rewrite IH. }
  split; [|split; [|split]].
  - change (map reduce_waypoint) with (fmap (M:=list) reduce_waypoint).
    by rewrite py_sort_perm.
  - intros time. change (map reduce_waypoint) with (fmap (M:=list) reduce_waypoint).
    by rewrite Hcomm, py_sort_stable.
  - rewrite length_map, py_sort_length. apply omap_length_le.
  - intros p Hp. change (map reduce_waypoint) with (fmap (M:=list) reduce_waypoint) in Hp.
    apply list_elem_of_fmap in Hp as (q & -> & Hq).
    rewrite py_sort_perm in Hq.
    apply list_elem_of_omap in Hq as (loc & Hloc & Hw).
    pose proof (waypoint_time _ _ _ _ Hw) as Htime.
    apply waypoint_inv in Hw as (stn & Hres & Hq).
    exists loc, stn. do 3 (split; [done|]).
    rewrite Hq at 1. reflexivity.
Qed.

(** X19: the operators of the output are the operator codes of its
    trains, each once, in the order of the first train of each. *)
Theorem output_operators_ordered (today : string) (feed : list FeedLine) :
  (operators (run today feed)).*1 = first_seen (train_op <$> trains (run today feed)).
Proof.
  change (operators (run today feed))
    with (collect_operators (trains (run today feed))).
  unfold collect_operators. rewrite collect_keys. apply first_seen_fold.
Qed.

(** X20: the count written to the meta block is the number of trains of
    the output; there are at most as many trains as uid groups, and at
    most as many groups as lines of the feed. *)
Theorem output_counts (today : string) (feed : list FeedLine) :
  total_trains (meta (run today feed)) = length (trains (run today feed))
  ∧ (length (trains (run today feed)) ≤ length (process_schedule feed))%nat
  ∧ (length (process_schedule feed) ≤ length (group_by_uid feed))%nat
  ∧ (length (group_by_uid feed) ≤ length feed)%nat.
Proof.
  split; [reflexivity|]. split; [|split].
  - rewrite main_trains, length_fmap. apply list_filter_length.
  - apply omap_length_le.
  - unfold group_by_uid. etrans; [apply ingest_length|]. simpl.
    apply omap_length_le.
Qed.
End OutputFacts.

Lemma output_path_stops_witness :
  ∃ best,
    select_best (variants "X2" Sample.feed) = Some best
    ∧ (length (train_path Sample.x2_train) ≤ length (locations best))%nat.
Proof.
  destruct (@output_path_stops Sample.fixed Sample.tiploc_to_crs Sample.stations
              Sample.today Sample.feed Sample.x2_train x2_train_emitted)
    as (best & Hsel & _ & _ & Hlen & _).
  exists best. by split.
Defined.
